(** * SQL generators of tourmageddon-saas: a shallow embedding

    The repository holds standalone pandas scripts that read a table and
    print SQL text:
      - [generate_update_sql.py]    (module [DateUpdate]),
      - [update_status_from_csv.py] (module [StatusUpdate]);
    [read_excel.py] (module [ReadExcel]) prints a summary of the sheet.

    A table is modelled after loading, column by column.  Text is Rocq's
    [string] (8-bit characters: exactly the code points that the latin-1
    decoding of the CSV script produces).  Standard output is the list of
    the texts handed to [print], one entry per call; an uncaught Python
    exception ends the run and is part of the result. *)

From Stdlib Require Import List String Ascii ZArith Arith Lia Bool DecimalString.
From Stdlib Require Import Permutation.
Import ListNotations.
Open Scope string_scope.

(** ** Python and pandas primitives used by the scripts *)

Module Py.

(** [old in s] on strings. *)
Fixpoint contains (old s : string) : bool :=
  prefix old s ||
  match s with
  | EmptyString => false
  | String _ s' => contains old s'
  end.

(** Scanning loop of [str.replace] for a non-empty pattern: leftmost,
    non-overlapping occurrences are replaced; [skip] counts the characters of
    a matched occurrence that are still to be dropped. *)
Fixpoint replace_from (old new : string) (skip : nat) (s : string) : string :=
  match s with
  | EmptyString => EmptyString
  | String c s' =>
      match skip with
      | S k => replace_from old new k s'
      | O =>
          if prefix old s
          then new ++ replace_from old new (String.length old - 1) s'
          else String c (replace_from old new 0 s')
      end
  end.

(** With the empty pattern Python inserts [new] around every character. *)
Fixpoint insert_after_each (new s : string) : string :=
  match s with
  | EmptyString => EmptyString
  | String c s' => String c (new ++ insert_after_each new s')
  end.

(** [s.replace(old, new)]. *)
Definition replace (old new s : string) : string :=
  match old with
  | EmptyString => new ++ insert_after_each new s
  | String _ _ => replace_from old new 0 s
  end.

(** [sep.join(l)]. *)
Definition join (sep : string) (l : list string) : string := String.concat sep l.

(** [str.lower] on 8-bit characters: A-Z and the accented capitals of
    latin-1 (0xC0-0xDE but the multiplication sign 0xD7). *)
Definition lower_char (c : ascii) : ascii :=
  let n := nat_of_ascii c in
  if (((65 <=? n) && (n <=? 90)) || ((192 <=? n) && (n <=? 222) && negb (n =? 215)))%nat
  then ascii_of_nat (n + 32)
  else c.

Fixpoint lower (s : string) : string :=
  match s with
  | EmptyString => EmptyString
  | String c s' => String (lower_char c) (lower s')
  end.

(** [str(n)] for a length and for an integer. *)
Definition str_nat (n : nat) : string := NilEmpty.string_of_uint (Nat.to_uint n).
Definition str_Z (z : Z) : string := NilEmpty.string_of_int (Z.to_int z).

(** [range(0, stop, step)] for [step >= 1]: Python computes the number of
    elements as the ceiling of [stop / step]. *)
Definition range_len (stop step : nat) : nat := (stop + step - 1) / step.

Definition range0 (stop step : nat) : list nat :=
  map (fun k => k * step) (seq 0 (range_len stop step)).

(** [l[i:j]] for [0 <= i <= j]; the slice is cut at the end of [l]. *)
Definition slice {A : Type} (l : list A) (i j : nat) : list A :=
  firstn (j - i) (skipn i l).

(** [c in s] for one character. *)
Fixpoint has_char (c : ascii) (s : string) : bool :=
  match s with
  | EmptyString => false
  | String d s' => Ascii.eqb c d || has_char c s'
  end.

(** The range-step slicing loop of both scripts: the slices
    [rows[i:i+size]] for [i] in [range(0, len(rows), size)]. *)
Definition batches {A : Type} (size : nat) (rows : list A) : list (list A) :=
  map (fun i => slice rows i (i + size)) (range0 (List.length rows) size).

End Py.

(** ** Data model *)

(** A pandas [Timestamp], to the second (pandas holds dates of the years
    1677 to 2262, so a year always has four digits). *)
Record Timestamp := mkTimestamp
  { year : nat; month : nat; day : nat; hour : nat; minute : nat; second : nat }.

(** A cell of a loaded table: text, an integer, a date, or the missing value
    (NaN; NaT in a date column). *)
Inductive Cell :=
| CStr (s : string)
| CInt (z : Z)
| CTime (t : Timestamp)
| CNaN.

Definition Series := list Cell.

(** A table, column by column, in the order of the file's header. *)
Definition DataFrame := list (string * Series).

Inductive PyError :=
| KeyError (key : string)
| AttributeError
| ValueError
| TypeError.

Module Pandas.

Definition nl : string := String (ascii_of_nat 10) EmptyString.

Definition timestamp_eqb (a b : Timestamp) : bool :=
  (year a =? year b)%nat && (month a =? month b)%nat && (day a =? day b)%nat &&
  (hour a =? hour b)%nat && (minute a =? minute b)%nat && (second a =? second b)%nat.

(** Equality of the hash tables behind [unique] and [drop_duplicates]: two
    missing values are the same entry. *)
Definition cell_same (a b : Cell) : bool :=
  match a, b with
  | CStr x, CStr y => String.eqb x y
  | CInt x, CInt y => Z.eqb x y
  | CTime x, CTime y => timestamp_eqb x y
  | CNaN, CNaN => true
  | _, _ => false
  end.

(** Python's [==] between cells: a missing value equals nothing, not even
    itself. *)
Definition cell_eq (a b : Cell) : bool :=
  match a, b with
  | CNaN, _ | _, CNaN => false
  | _, _ => cell_same a b
  end.

Definition notna (c : Cell) : bool :=
  match c with CNaN => false | _ => true end.

(** Zero padding of a number to a width, as [strftime] does. *)
Fixpoint zeros (n : nat) : string :=
  match n with O => EmptyString | S k => String "0" (zeros k) end.

Definition zfill (width n : nat) : string :=
  let s := Py.str_nat n in zeros (width - String.length s) ++ s.

(** [t.strftime('%Y-%m-%d %H:%M:%S')]. *)
Definition strftime_ts (t : Timestamp) : string :=
  zfill 4 (year t) ++ "-" ++ zfill 2 (month t) ++ "-" ++ zfill 2 (day t) ++ " " ++
  zfill 2 (hour t) ++ ":" ++ zfill 2 (minute t) ++ ":" ++ zfill 2 (second t).

(** [str(c)], also what an f-string and [astype(str)] produce. *)
Definition py_str (c : Cell) : string :=
  match c with
  | CStr s => s
  | CInt z => Py.str_Z z
  | CTime t => strftime_ts t
  | CNaN => "nan"
  end.

(** [df.columns] and [len(df)]. *)
Definition columns (df : DataFrame) : list string := map fst df.

Definition len (df : DataFrame) : nat :=
  match df with
  | [] => 0
  | (_, ser) :: _ => List.length ser
  end.

(** [df[col]]: a missing column raises [KeyError]. *)
Fixpoint getitem (df : DataFrame) (col : string) : PyError + Series :=
  match df with
  | [] => inl (KeyError col)
  | (c, ser) :: df' => if String.eqb c col then inr ser else getitem df' col
  end.

(** [df[col] = ser]: overwrites the column or appends it. *)
Fixpoint setitem (df : DataFrame) (col : string) (ser : Series) : DataFrame :=
  match df with
  | [] => [(col, ser)]
  | (c, old) :: df' =>
      if String.eqb c col then (c, ser) :: df' else (c, old) :: setitem df' col ser
  end.

(** [col in df.columns]. *)
Definition has_column (df : DataFrame) (col : string) : bool :=
  existsb (String.eqb col) (columns df).

(** The [.str] accessor is refused ([AttributeError]) on a column that was
    not loaded as text: a non-empty column without any text cell is stored
    with a numeric or date type, unless it mixes integers and dates. *)
Definition is_str (c : Cell) : bool := match c with CStr _ => true | _ => false end.
Definition is_int (c : Cell) : bool := match c with CInt _ => true | _ => false end.
Definition is_time (c : Cell) : bool := match c with CTime _ => true | _ => false end.

Definition str_accessor (ser : Series) : PyError + Series :=
  match ser with
  | [] => inr ser
  | _ :: _ =>
      if existsb is_str ser || (existsb is_int ser && existsb is_time ser)
      then inr ser
      else inl AttributeError
  end.

(** [ser.str.replace(old, new)]: a cell that is not text becomes missing. *)
Definition str_replace_cell (old new : string) (c : Cell) : Cell :=
  match c with
  | CStr s => CStr (Py.replace old new s)
  | _ => CNaN
  end.

Definition str_replace (old new : string) (ser : Series) : Series :=
  map (str_replace_cell old new) ser.

(** First occurrences, in order, as [unique] and [drop_duplicates] keep them. *)
Fixpoint first_occurrences {A : Type} (same : A -> A -> bool) (seen l : list A) : list A :=
  match l with
  | [] => []
  | x :: l' =>
      if existsb (same x) seen
      then first_occurrences same seen l'
      else x :: first_occurrences same (x :: seen) l'
  end.

Definition unique (ser : Series) : list Cell := first_occurrences cell_same [] ser.

Definition row_same (a b : Cell * Cell) : bool :=
  cell_same (fst a) (fst b) && cell_same (snd a) (snd b).

Definition drop_duplicates (rows : list (Cell * Cell)) : list (Cell * Cell) :=
  first_occurrences row_same [] rows.

(** [ser.nunique()]: the distinct values that are not missing. *)
Definition nunique (ser : Series) : nat := List.length (unique (filter notna ser)).

(** [strftime] on the result of [pd.to_datetime]: [None] is NaT, on which
    [strftime] raises. *)
Definition strftime (d : option Timestamp) : PyError + string :=
  match d with
  | Some t => inr (strftime_ts t)
  | None => inl ValueError
  end.

End Pandas.

(** ** Standard output and uncaught exceptions *)

Module Run.

(** A computation takes the lines printed so far and returns them extended,
    with either the exception that ended it or its value. *)
Definition M (A : Type) : Type := list string -> list string * (PyError + A).

Definition ret {A : Type} (a : A) : M A := fun out => (out, inr a).

Definition bind {A B : Type} (m : M A) (f : A -> M B) : M B :=
  fun out =>
    match m out with
    | (out', inl e) => (out', inl e)
    | (out', inr a) => f a out'
    end.

Definition print (s : string) : M unit := fun out => ((out ++ [s])%list, inr tt).

Definition lift {A : Type} (r : PyError + A) : M A := fun out => (out, r).

Fixpoint for_each {A : Type} (l : list A) (body : A -> M unit) : M unit :=
  match l with
  | [] => ret tt
  | x :: l' => bind (body x) (fun _ => for_each l' body)
  end.

(** [m] prints [lines] and ends normally, whatever was printed before. *)
Definition emits (m : M unit) (lines : list string) : Prop :=
  forall out, m out = ((out ++ lines)%list, inr tt).

(** [m] only adds lines that satisfy [Q] to the output; [m] always ends in
    an exception. *)
Definition prints_only {A : Type} (Q : string -> Prop) (m : M A) : Prop :=
  forall out, exists lines, fst (m out) = (out ++ lines)%list /\ Forall Q lines.

Definition raises {A : Type} (m : M A) : Prop :=
  forall out, exists e, snd (m out) = inl e.

(** A run of a script: what it printed and the exception that ended it, if
    any. *)
Definition run (m : M unit) : list string * option PyError :=
  match m [] with
  | (out, inl e) => (out, Some e)
  | (out, inr _) => (out, None)
  end.

End Run.

Declare Scope run_scope.
Delimit Scope run_scope with run.
Notation "x <- m ;; k" := (Run.bind m (fun x => k))
  (at level 61, m at next level, right associativity) : run_scope.
Notation "m ;; k" := (Run.bind m (fun _ => k))
  (at level 61, right associativity) : run_scope.

(** ** generate_update_sql.py *)

Module DateUpdate.
Import Pandas Run.
Local Open Scope run_scope.

(** Line 8 on one identifier: the six replacements, in the order of the
    chain. *)
Definition clean_booking_id (s : string) : string :=
  Py.replace "VET-" ""
    (Py.replace "HED-" ""
      (Py.replace "VIA-" ""
        (Py.replace "PRO-" ""
          (Py.replace "TTG-" ""
            (Py.replace "ENRO-" "" s))))).

(** The six replacements of line 8 on the cells of a column. *)
Definition clean_booking_id_column (ser : Series) : Series :=
  str_replace "VET-" ""
    (str_replace "HED-" ""
      (str_replace "VIA-" ""
        (str_replace "PRO-" ""
          (str_replace "TTG-" ""
            (str_replace "ENRO-" "" ser))))).

(** What line 8 does to one cell of the column. *)
Definition clean_cell (c : Cell) : Cell :=
  match c with
  | CStr s => CStr (clean_booking_id s)
  | _ => CNaN
  end.

(** The six channel prefixes, and two tests on an identifier: it starts
    with one of them; none of them occurs in it any more. *)
Definition channel_prefixes : list string :=
  ["ENRO-"; "TTG-"; "PRO-"; "VIA-"; "HED-"; "VET-"].

Definition starts_with_channel (s : string) : bool :=
  existsb (fun p => prefix p s) channel_prefixes.

Definition exhausted (s : string) : bool :=
  forallb (fun p => negb (Py.contains p s)) channel_prefixes.

(** One link of the chain of line 8: [.str] validates the column it is
    applied to, then [replace] maps it. *)
Definition str_then_replace (old new : string) (ser : Series) : PyError + Series :=
  match str_accessor ser with
  | inl e => inl e
  | inr text => inr (str_replace old new text)
  end.

Definition and_then {A B : Type} (r : PyError + A) (k : A -> PyError + B) : PyError + B :=
  match r with
  | inl e => inl e
  | inr a => k a
  end.

(** Line 8 on the column: each of the six [.str] validates the result of the
    link before it. *)
Definition clean_column (booking_id : Series) : PyError + Series :=
  and_then (str_then_replace "ENRO-" "" booking_id) (fun s1 =>
  and_then (str_then_replace "TTG-" "" s1) (fun s2 =>
  and_then (str_then_replace "PRO-" "" s2) (fun s3 =>
  and_then (str_then_replace "VIA-" "" s3) (fun s4 =>
  and_then (str_then_replace "HED-" "" s4) (fun s5 =>
  str_then_replace "VET-" "" s5))))).

(** A column of text: it has no row, or some cell of it is text. *)
Definition text_column (ser : Series) : bool :=
  match ser with
  | [] => true
  | _ :: _ => existsb is_str ser
  end.

Definition batch_size : nat := 50.

Definition where_in (keys : list Cell) : string :=
  "WHERE booking_id::text IN ('" ++ Py.join "', '" (map py_str keys) ++ "');".

(** Lines 38 and 45: [astype(str)] leaves a missing key missing, and [join]
    raises [TypeError] on it. *)
Definition is_missing (c : Cell) : bool := negb (notna c).

Definition join_keys (keys : list Cell) : PyError + string :=
  if existsb is_missing keys then inl TypeError
  else inr (Py.join "', '" (map py_str keys)).

(** The key as line 34 prints it.  [iterrows] rebuilds the row as a Series,
    and a row that holds only dates and missing values becomes a row of
    dates, in which a missing key reads back as NaT.  (After line 8 a key is
    text or missing.) *)
Definition row_key (row : Cell * Cell) : string :=
  match fst row, snd row with
  | CNaN, CTime _ => "NaT"
  | CNaN, CNaN => "NaT"
  | key, _ => py_str key
  end.

Section Script.

(** [pd.to_datetime] on text and numbers is pandas' date parser; it is a
    parameter of the model ([inl]: it raises; [inr None]: NaT). *)
Variable parse_datetime : Cell -> PyError + option Timestamp.

Definition to_datetime (c : Cell) : PyError + option Timestamp :=
  match c with
  | CTime t => inr (Some t)
  | CNaN => inr None
  | _ => parse_datetime c
  end.

(** Lines 33-34, for one row of the batch. *)
Definition emit_when (row : Cell * Cell) : M unit :=
  d <- lift (to_datetime (snd row)) ;;
  creation_date <- lift (strftime d) ;;
  print ("    WHEN '" ++ row_key row ++ "' THEN '" ++ creation_date ++ "'::timestamp").

(** Lines 28-39, the emitter of the batch taken at offset [i]. *)
Definition emit_batch (i : nat) (batch : list (Cell * Cell)) : M unit :=
  print (nl ++ "-- Batch " ++ Py.str_nat (i / batch_size + 1)) ;;
  print "UPDATE activity_bookings" ;;
  print "SET created_at = CASE booking_id::text" ;;
  for_each batch emit_when ;;
  print "    ELSE created_at" ;;
  print "END" ;;
  booking_list <- lift (join_keys (map fst batch)) ;;
  print ("WHERE booking_id::text IN ('" ++ booking_list ++ "');").

(** Lines 42-46. *)
Definition emit_verification (unique_bookings : list (Cell * Cell)) : M unit :=
  print (nl ++ nl ++ "-- Verification query to check the updates") ;;
  print "SELECT COUNT(*) as updated_count, MIN(created_at) as min_date, MAX(created_at) as max_date" ;;
  print "FROM activity_bookings" ;;
  booking_list_all <- lift (join_keys (map fst unique_bookings)) ;;
  print ("WHERE booking_id::text IN ('" ++ booking_list_all ++ "');").

(** The script, from the loaded table on. *)
Definition generate_update_sql (df : DataFrame) : M unit :=
  booking_id <- lift (getitem df "booking_id") ;;
  cleaned <- lift (clean_column booking_id) ;;
  let df := setitem df "clean_booking_id" cleaned in
  clean <- lift (getitem df "clean_booking_id") ;;
  dates <- lift (getitem df "creation_date") ;;
  let unique_bookings := drop_duplicates (combine clean dates) in
  print ("Total unique bookings to update: " ++ Py.str_nat (List.length unique_bookings)) ;;
  print (nl ++ "-- SQL to update booking creation dates from Excel file") ;;
  print ("-- This will update the anomalous bookings imported in bulk" ++ nl) ;;
  let booking_ids := map fst unique_bookings in
  print ("-- Updating " ++ Py.str_nat (List.length booking_ids) ++ " bookings" ++ nl) ;;
  for_each (Py.range0 (List.length unique_bookings) batch_size)
           (fun i =>
              let batch := Py.slice unique_bookings i (i + batch_size) in
              emit_batch i batch) ;;
  emit_verification unique_bookings.

End Script.

(** *** What the printed statement means

    The statement of a batch has the shape
    [UPDATE activity_bookings SET created_at = CASE booking_id::text
     WHEN k THEN v ... ELSE created_at END WHERE booking_id::text IN (k, ...)].
    Its effect on a row of [activity_bookings] is that of SQL: a row outside
    the [IN] list is not touched, a row inside it takes the value of the
    first matching [WHEN], or keeps its own under [ELSE]. *)

Record CaseUpdate := mkCaseUpdate
  { whens : list (string * string);   (* key, timestamp literal *)
    in_keys : list string }.




Definition when_line (w : string * string) : string :=
  "    WHEN '" ++ fst w ++ "' THEN '" ++ snd w ++ "'::timestamp".

Definition render (u : CaseUpdate) : list string :=
  ["UPDATE activity_bookings"; "SET created_at = CASE booking_id::text"] ++
  map when_line (whens u) ++
  ["    ELSE created_at"; "END";
   "WHERE booking_id::text IN ('" ++ Py.join "', '" (in_keys u) ++ "');"].

(** The statement of a batch of (key, timestamp) pairs; a key is text. *)
Definition statement_of (batch : list (string * Timestamp)) : CaseUpdate :=
  mkCaseUpdate (map (fun r => (fst r, strftime_ts (snd r))) batch)
               (map fst batch).

(** A (key, timestamp) pair as a row of [unique_bookings]. *)
Definition dated (r : string * Timestamp) : Cell * Cell := (CStr (fst r), CTime (snd r)).

(** The lines of a batch of (key, timestamp) pairs taken at offset [i], and
    of the verification query. *)
Definition batch_lines (i : nat) (batch : list (string * Timestamp)) : list string :=
  (nl ++ "-- Batch " ++ Py.str_nat (i / batch_size + 1)) :: render (statement_of batch).

(** *** Reading the printed statement back

    The printed lines are read as SQL text: a string literal runs from a
    quote to the next quote (the scripts escape nothing, and a doubled quote
    is not read as an escape here), the [IN] list is a list of literals
    separated by commas. *)

Fixpoint strip_prefix (p s : string) : option string :=
  match p with
  | EmptyString => Some s
  | String a p' =>
      match s with
      | EmptyString => None
      | String b s' => if Ascii.eqb a b then strip_prefix p' s' else None
      end
  end.



(** The literals of a list up to its closing [);]: [inside] tells whether
    the text starts inside a literal. *)
Fixpoint read_list (inside : bool) (s : string) : option (list string) :=
  match s with
  | EmptyString => None
  | String c s' =>
      if inside then
        if Ascii.eqb "'" c then
          match read_list false s' with
          | Some lits => Some (EmptyString :: lits)
          | None => None
          end
        else
          match read_list true s' with
          | Some (lit :: lits) => Some (String c lit :: lits)
          | _ => None
          end
      else if Ascii.eqb "'" c then read_list true s'
      else if Ascii.eqb "," c || Ascii.eqb " " c then read_list false s'
      else if Ascii.eqb ")" c then (if String.eqb s' ";" then Some [] else None)
      else None
  end.

Definition read_in (line : string) : option (list string) :=
  match strip_prefix "WHERE booking_id::text IN (" line with
  | Some s => read_list false s
  | None => None
  end.




(** The [IN] lists of all the [WHERE] lines of an output. *)
Definition in_lists (out : list string) : list (list string) :=
  flat_map (fun line => match read_in line with Some keys => [keys] | None => [] end) out.

Definition preamble_lines (n : nat) : list string :=
  ["Total unique bookings to update: " ++ Py.str_nat n;
   nl ++ "-- SQL to update booking creation dates from Excel file";
   "-- This will update the anomalous bookings imported in bulk" ++ nl;
   "-- Updating " ++ Py.str_nat n ++ " bookings" ++ nl].

Definition verification_lines (keys : list Cell) : list string :=
  [nl ++ nl ++ "-- Verification query to check the updates";
   "SELECT COUNT(*) as updated_count, MIN(created_at) as min_date, MAX(created_at) as max_date";
   "FROM activity_bookings";
   where_in keys].

End DateUpdate.

(** ** update_status_from_csv.py *)

Module StatusUpdate.
Import Pandas Run.
Local Open Scope run_scope.

Definition batch_size : nat := 100.

(** Lines 13-17: the first column whose lower-cased name contains
    [status]. *)
Definition find_status_col (cols : list string) : option string :=
  find (fun col => Py.contains "status" (Py.lower col)) cols.

(** [if status_col:] is false on [None] and on the empty string. *)
Definition truthy (status_col : option string) : bool :=
  match status_col with
  | Some (String _ _) => true
  | _ => false
  end.

Definition col_name (status_col : option string) : string :=
  match status_col with Some c => c | None => "None" end.

(** [df[df[status_col] == status]['activity_booking_id'].tolist()]. *)
Definition ids_with_status (statuses ids : Series) (status : Cell) : list Cell :=
  map snd (filter (fun r => cell_eq (fst r) status) (combine statuses ids)).

(** Lines 45-51, the body of the batch loop at offset [i]. *)
Definition emit_batch (status : Cell) (activity_ids : list Cell) (i : nat) : M unit :=
  let batch := Py.slice activity_ids i (i + batch_size) in
  let ids_str := Py.join ", " (map py_str batch) in
  print "UPDATE activity_bookings" ;;
  print ("SET status = '" ++ py_str status ++ "'") ;;
  print ("WHERE activity_booking_id IN (" ++ ids_str ++ ");") ;;
  print "".

(** Lines 36-51, the body of the loop over the status values. *)
Definition emit_status (statuses ids : Series) (status : Cell) : M unit :=
  let activity_ids := ids_with_status statuses ids status in
  if (0 <? List.length activity_ids)%nat then
    print (nl ++ "-- Update " ++ Py.str_nat (List.length activity_ids) ++
           " bookings to " ++ py_str status) ;;
    for_each (Py.range0 (List.length activity_ids) batch_size)
             (emit_batch status activity_ids)
  else ret tt.

(** Lines 54-59. *)
Definition emit_verification (ids : Series) : M unit :=
  print (nl ++ "-- Verification query") ;;
  let all_ids := Py.join ", " (map py_str ids) in
  print "SELECT status, COUNT(*) as count" ;;
  print "FROM activity_bookings" ;;
  print ("WHERE activity_booking_id IN (" ++ all_ids ++ ")") ;;
  print "GROUP BY status;".

(** The same loops as lists of lines. *)
Definition batch_lines (status : Cell) (batch : list Cell) : list string :=
  ["UPDATE activity_bookings";
   "SET status = '" ++ py_str status ++ "'";
   "WHERE activity_booking_id IN (" ++ Py.join ", " (map py_str batch) ++ ");";
   ""].

Definition status_lines (statuses ids : Series) (status : Cell) : list string :=
  let activity_ids := ids_with_status statuses ids status in
  match activity_ids with
  | [] => []
  | _ :: _ =>
      (nl ++ "-- Update " ++ Py.str_nat (List.length activity_ids) ++
       " bookings to " ++ py_str status)
      :: flat_map (batch_lines status) (Py.batches batch_size activity_ids)
  end.

Definition update_lines (statuses ids : Series) : list string :=
  flat_map (status_lines statuses ids) (unique statuses).

Definition verification_lines (ids : Series) : list string :=
  [nl ++ "-- Verification query";
   "SELECT status, COUNT(*) as count";
   "FROM activity_bookings";
   "WHERE activity_booking_id IN (" ++ Py.join ", " (map py_str ids) ++ ")";
   "GROUP BY status;"].

(** The rows whose status is not missing. *)
Definition with_status (statuses ids : Series) : list (Cell * Cell) :=
  filter (fun r => notna (fst r)) (combine statuses ids).

Section Script.

(** The texts pandas prints for a list of column names and for
    [value_counts()] are parameters of the model. *)
Variable repr_columns : list string -> string.
Variable repr_value_counts : Series -> string.

(** The script, from the loaded table on. *)
Definition update_status_from_csv (df : DataFrame) : M unit :=
  print "File info:" ;;
  print ("Total rows: " ++ Py.str_nat (len df)) ;;
  print ("Columns: " ++ repr_columns (columns df)) ;;
  let status_col := find_status_col (columns df) in
  (if truthy status_col then
     print (nl ++ "Found status column: " ++ col_name status_col) ;;
     statuses <- lift (getitem df (col_name status_col)) ;;
     print ("Status values: " ++ repr_value_counts statuses)
   else
     print (nl ++ "Status column not found!")) ;;
  if has_column df "activity_booking_id" then
    ids <- lift (getitem df "activity_booking_id") ;;
    print (nl ++ "Unique activity_booking_ids: " ++ Py.str_nat (nunique ids)) ;;
    print (nl ++ nl ++ "-- SQL Updates for status changes") ;;
    print ("-- Grouping by status for efficiency" ++ nl) ;;
    if truthy status_col then
      statuses <- lift (getitem df (col_name status_col)) ;;
      for_each (unique statuses) (emit_status statuses ids) ;;
      emit_verification ids
    else ret tt
  else
    print "activity_booking_id column not found!".

(** Lines 8-10, lines 19-23 and lines 27-31 as lists of lines. *)
Definition header_lines (df : DataFrame) : list string :=
  ["File info:";
   "Total rows: " ++ Py.str_nat (len df);
   "Columns: " ++ repr_columns (columns df)].

Definition status_report (df : DataFrame) : list string :=
  match find_status_col (columns df) with
  | Some sc =>
      [nl ++ "Found status column: " ++ sc;
       "Status values: " ++
       repr_value_counts (match getitem df sc with inr ser => ser | inl _ => [] end)]
  | None => [nl ++ "Status column not found!"]
  end.

Definition sql_header_lines (ids : Series) : list string :=
  [nl ++ "Unique activity_booking_ids: " ++ Py.str_nat (nunique ids);
   nl ++ nl ++ "-- SQL Updates for status changes";
   "-- Grouping by status for efficiency" ++ nl].

(** The lines printed before the updates when both columns are there. *)
Definition diagnostics (df : DataFrame) (sc : string) (statuses ids : Series) : list string :=
  ["File info:";
   "Total rows: " ++ Py.str_nat (len df);
   "Columns: " ++ repr_columns (columns df);
   nl ++ "Found status column: " ++ sc;
   "Status values: " ++ repr_value_counts statuses;
   nl ++ "Unique activity_booking_ids: " ++ Py.str_nat (nunique ids);
   nl ++ nl ++ "-- SQL Updates for status changes";
   "-- Grouping by status for efficiency" ++ nl].

End Script.

End StatusUpdate.

(** ** read_excel.py *)

Module ReadExcel.
Import Pandas Run.
Local Open Scope run_scope.

(** Line 25: the columns whose lower-cased name contains [date] or
    [created]. *)
Definition is_date_column (col : string) : bool :=
  Py.contains "date" (Py.lower col) || Py.contains "created" (Py.lower col).

(** [df.head()]: the first five rows. *)
Definition head (df : DataFrame) : DataFrame :=
  map (fun c => (fst c, firstn 5 (snd c))) df.

Section Script.

(** The texts Python and pandas print for a list of names, for a table, for
    a list of cells and for a column are parameters of the model. *)
Variable repr_columns : list string -> string.
Variable repr_frame : DataFrame -> string.
Variable repr_cells : list Cell -> string.
Variable repr_series : Series -> string.

(** Lines 16-18 and 20-22. *)
Definition report_ids (df : DataFrame) (col : string) : M unit :=
  if has_column df col then
    print (nl ++ "Found " ++ col ++ " column") ;;
    ids <- lift (getitem df col) ;;
    print ("Sample IDs: " ++ repr_cells (firstn 10 ids))
  else ret tt.

(** Lines 30-31, for one date column. *)
Definition report_date_column (df : DataFrame) (col : string) : M unit :=
  print (nl ++ col ++ " sample values:") ;;
  ser <- lift (getitem df col) ;;
  print (repr_series (firstn 5 ser)).

(** The script, from the loaded table on; column names are text. *)
Definition read_excel (df : DataFrame) : M unit :=
  print "Column names:" ;;
  print (repr_columns (columns df)) ;;
  print (nl ++ "First 5 rows:") ;;
  print (repr_frame (head df)) ;;
  print (nl ++ "Total rows: " ++ Py.str_nat (len df)) ;;
  report_ids df "activity_booking_id" ;;
  report_ids df "booking_id" ;;
  let date_columns := filter is_date_column (columns df) in
  print (nl ++ "Date columns found: " ++ repr_columns date_columns) ;;
  match date_columns with
  | [] => ret tt
  | _ :: _ => for_each date_columns (report_date_column df)
  end.

(** The same reports as lists of lines. *)
Definition column_or_empty (df : DataFrame) (col : string) : Series :=
  match getitem df col with inr ser => ser | inl _ => [] end.

Definition opening_lines (df : DataFrame) : list string :=
  ["Column names:";
   repr_columns (columns df);
   nl ++ "First 5 rows:";
   repr_frame (head df);
   nl ++ "Total rows: " ++ Py.str_nat (len df)].

Definition ids_lines (df : DataFrame) (col : string) : list string :=
  if has_column df col then
    [nl ++ "Found " ++ col ++ " column";
     "Sample IDs: " ++ repr_cells (firstn 10 (column_or_empty df col))]
  else [].

Definition date_lines (df : DataFrame) (col : string) : list string :=
  [nl ++ col ++ " sample values:";
   repr_series (firstn 5 (column_or_empty df col))].

Definition date_columns_line (df : DataFrame) : list string :=
  [nl ++ "Date columns found: " ++ repr_columns (filter is_date_column (columns df))].

End Script.

End ReadExcel.

(** The lines that open a statement, to count the statements printed. *)
Definition update_statements (out : list string) : list string :=
  filter (prefix "UPDATE") out.

Definition select_statements (out : list string) : list string :=
  filter (prefix "SELECT") out.

Definition not_select (line : string) : Prop := prefix "SELECT" line = false.

(** A text without a quote character. *)
Definition no_quote (s : string) : Prop := Py.has_char "'" s = false.

(** ** Sample tables *)

(** 150 identifiers with one status. *)
Definition table_150 : DataFrame :=
  [("activity_booking_id", map (fun n => CInt (Z.of_nat n)) (seq 1 150));
   ("booking_status", repeat (CStr "confirmed") 150)].

(** Tables without rows, and tables that lack a column. *)
Definition table_no_rows_xlsx : DataFrame := [("booking_id", []); ("creation_date", [])].
Definition table_no_rows_csv : DataFrame := [("activity_booking_id", []); ("status", [])].
Definition table_no_ids : DataFrame := [("status", [CStr "ok"])].
Definition table_no_status : DataFrame := [("activity_booking_id", [CInt 1])].
Definition table_no_dates : DataFrame := [("booking_id", [CStr "ENRO-1"])].

(** Two bookings of the ENRO channel. *)
Definition table_two_bookings : DataFrame :=
  [("booking_id", [CStr "ENRO-1"; CStr "ENRO-2"]);
   ("creation_date", [CTime (mkTimestamp 2024 1 1 0 0 0); CTime (mkTimestamp 2024 1 2 0 0 0)])].

(** Two bookings, the second without a creation date. *)
Definition table_missing_date : DataFrame :=
  [("booking_id", [CStr "ENRO-1"; CStr "ENRO-2"]);
   ("creation_date", [CTime (mkTimestamp 2024 1 1 0 0 0); CNaN])].

(** Two bookings, the second with a cell that is not text as identifier. *)
Definition table_missing_key : DataFrame :=
  [("booking_id", [CStr "ENRO-1"; CInt 7]);
   ("creation_date", [CTime (mkTimestamp 2024 1 1 0 0 0); CTime (mkTimestamp 2024 1 2 0 0 0)])].

(** A sheet with an identifier and two date columns. *)
Definition table_sheet : DataFrame :=
  [("booking_id", [CStr "ENRO-1"]);
   ("creation_date", [CTime (mkTimestamp 2024 1 1 0 0 0)]);
   ("Created At", [CNaN])].

(** Three rows, the second without a status. *)
Definition table_missing_status : DataFrame :=
  [("activity_booking_id", [CInt 1; CInt 2; CInt 3]);
   ("status", [CStr "ok"; CNaN; CStr "ok"])].

(** * Properties *)

Example replace_ex1 : Py.replace "ab" "X" "cababab-aab" = "cXXX-aX".
Proof. reflexivity. Qed.
Example replace_ex2 : Py.replace "aa" "" "aaaxa" = "axa".
Proof. reflexivity. Qed.
Example replace_ex3 : Py.replace "" "-" "abc" = "-a-b-c-".
Proof. reflexivity. Qed.
Example str_ex : (Py.str_nat 0, Py.str_nat 150, Py.str_Z (-42), Py.str_Z 0) = ("0", "150", "-42", "0").
Proof. reflexivity. Qed.
Example range_ex : (Py.range0 150 100, Py.range0 100 50, Py.range0 0 50, Py.range0 101 50) = ([0; 100], [0; 50], [], [0; 50; 100]).
Proof. reflexivity. Qed.
Example lower_ex : Py.lower "Booking_STATUS" = "booking_status".
Proof. reflexivity. Qed.

(** ** The Batcher *)

Section Batcher.
Context {A : Type}.
Implicit Types (rows l : list A) (size : nat).

Lemma firstn_then_firstn l a b :
  (firstn a l ++ firstn b (skipn a l))%list = firstn (a + b) l.
Proof.
  revert l; induction a as [|a IH]; intros [|x l]; simpl; try reflexivity.
  - now rewrite firstn_nil.
  - now rewrite IH.
Qed.

Lemma slice_step l i size : Py.slice l i (i + size) = firstn size (skipn i l).
Proof. unfold Py.slice. now replace (i + size - i) with size by lia. Qed.

Lemma batches_unfold size rows :
  Py.batches size rows =
  map (fun k => firstn size (skipn (k * size) rows))
      (seq 0 (Py.range_len (List.length rows) size)).
Proof.
  unfold Py.batches, Py.range0. rewrite map_map.
  apply map_ext. intros k. apply slice_step.
Qed.

Lemma concat_slices size rows n :
  List.concat (map (fun k => firstn size (skipn (k * size) rows)) (seq 0 n)) =
  firstn (n * size) rows.
Proof.
  induction n as [|n IH].
  - reflexivity.
  - rewrite seq_S, map_app, concat_app, IH. simpl.
    rewrite app_nil_r, firstn_then_firstn. f_equal. lia.
Qed.

Lemma range_len_covers stop size : 1 <= size -> stop <= Py.range_len stop size * size.
Proof.
  intros Hs. unfold Py.range_len.
  pose proof (Nat.div_mod_eq (stop + size - 1) size) as E.
  pose proof (Nat.mod_upper_bound (stop + size - 1) size ltac:(lia)) as U.
  nia.
Qed.

Lemma range_len_tight stop size k :
  1 <= size -> S k < Py.range_len stop size -> S k * size < stop.
Proof.
  intros Hs. unfold Py.range_len.
  pose proof (Nat.div_mod_eq (stop + size - 1) size) as E.
  intros Hk. nia.
Qed.

Lemma batches_nth size rows k b :
  nth_error (Py.batches size rows) k = Some b ->
  b = firstn size (skipn (k * size) rows) /\
  k < Py.range_len (List.length rows) size.
Proof.
  rewrite batches_unfold, nth_error_map. intros H.
  destruct (nth_error (seq 0 (Py.range_len (List.length rows) size)) k) as [j|] eqn:Hj;
    [|discriminate].
  injection H as <-.
  assert (k < Py.range_len (List.length rows) size) as Hk.
  { rewrite <- (length_seq (Py.range_len (List.length rows) size) 0).
    apply nth_error_Some. rewrite Hj. discriminate. }
  rewrite (nth_error_nth' _ 0) in Hj by (now rewrite length_seq).
  rewrite seq_nth in Hj by exact Hk. injection Hj as <-. now split.
Qed.

Lemma batch_length_bounds size rows k b :
  1 <= size ->
  nth_error (Py.batches size rows) k = Some b ->
  List.length b <= size /\
  (S k < List.length (Py.batches size rows) -> List.length b = size).
Proof.
  intros Hs H. apply batches_nth in H. destruct H as [-> Hk].
  rewrite length_firstn, length_skipn. split; [lia|].
  rewrite batches_unfold, length_map, length_seq. intros Hlast.
  pose proof (range_len_tight (List.length rows) size k Hs Hlast). lia.
Qed.

End Batcher.

(** C1. For every sequence of rows and every batch size of at least 1, the
    batches taken by the range-step slicing loop, concatenated in order, are
    the rows themselves: each row occurs once, at its place, and no two
    batches overlap. *)
Theorem batches_concat {A : Type} (size : nat) (rows : list A) :
  1 <= size -> List.concat (Py.batches size rows) = rows.
Proof.
  intros Hs. rewrite batches_unfold, concat_slices.
  apply firstn_all2. now apply range_len_covers.
Qed.

Lemma batches_concat_witness :
  1 <= 2 /\ List.concat (Py.batches 2 [10; 20; 30; 40; 50]) = [10; 20; 30; 40; 50].
Proof. split; [lia | apply (batches_concat 2 [10; 20; 30; 40; 50]); lia]. Defined.

(** C5. With the batch size of the date script (50) and of the status script
    (100), every batch of the slicing loop has at most that many rows, and
    every batch but the last one has exactly that many. *)
Theorem batch_sizes {A : Type} (rows : list A) (k : nat) (b : list A) :
  (nth_error (Py.batches DateUpdate.batch_size rows) k = Some b ->
   List.length b <= 50 /\
   (S k < List.length (Py.batches DateUpdate.batch_size rows) -> List.length b = 50)) /\
  (nth_error (Py.batches StatusUpdate.batch_size rows) k = Some b ->
   List.length b <= 100 /\
   (S k < List.length (Py.batches StatusUpdate.batch_size rows) -> List.length b = 100)).
Proof.
  split; intros H.
  - apply (batch_length_bounds DateUpdate.batch_size rows k b); [unfold DateUpdate.batch_size; lia | exact H].
  - apply (batch_length_bounds StatusUpdate.batch_size rows k b); [unfold StatusUpdate.batch_size; lia | exact H].
Qed.

Lemma batch_sizes_witness :
  let rows := seq 0 120 in
  (List.length (firstn 50 rows) <= 50 /\ List.length (firstn 50 rows) = 50) /\
  List.length (skipn 100 rows) <= 100.
Proof.
  intros rows. split.
  - destruct (proj1 (batch_sizes rows 0 (firstn 50 rows)) eq_refl) as [Hle Heq].
    split; [exact Hle | apply Heq; vm_compute; lia].
  - exact (proj1 (proj2 (batch_sizes rows 1 (skipn 100 rows)) eq_refl)).
Defined.

(** ** The Key Normalizer *)

Lemma prefix_append old s : prefix old (old ++ s) = true.
Proof.
  induction old as [|c old IH]; simpl; [now destruct s|].
  destruct (ascii_dec c c); [exact IH | congruence].
Qed.

Lemma replace_from_skip old new t s :
  Py.replace_from old new (String.length t) (t ++ s) = Py.replace_from old new 0 s.
Proof. induction t as [|c t IH]; simpl; [reflexivity | exact IH]. Qed.

(** The two equations of [str.replace] for a non-empty pattern: an
    occurrence at the front is replaced and the scan goes on after it;
    otherwise the first character is kept. *)
Lemma replace_match c old new s :
  Py.replace (String c old) new (String c old ++ s) =
  new ++ Py.replace (String c old) new s.
Proof.
  unfold Py.replace.
  change (String c old ++ s) with (String c (old ++ s)).
  cbn [Py.replace_from].
  change (String c (old ++ s)) with (String c old ++ s).
  rewrite prefix_append.
  replace (String.length (String c old) - 1) with (String.length old) by (simpl; lia).
  now rewrite replace_from_skip.
Qed.

Lemma replace_no_match old new c s :
  old <> "" -> prefix old (String c s) = false ->
  Py.replace old new (String c s) = String c (Py.replace old new s).
Proof.
  intros Hne H. destruct old as [|o old]; [congruence|].
  unfold Py.replace. cbn [Py.replace_from]. now rewrite H.
Qed.

Lemma replace_absent old new s :
  Py.contains old s = false -> Py.replace old new s = s.
Proof.
  destruct old as [|o old].
  - destruct s; simpl; discriminate.
  - unfold Py.replace. induction s as [|c s IH]; intros H; [reflexivity|].
    cbn [Py.contains] in H. apply orb_false_elim in H. destruct H as [Hp Hc].
    cbn [Py.replace_from]. rewrite Hp. f_equal. now apply IH.
Qed.

Lemma clean_exhausted s :
  DateUpdate.exhausted s = true -> DateUpdate.clean_booking_id s = s.
Proof.
  unfold DateUpdate.exhausted, DateUpdate.channel_prefixes. cbn [forallb].
  rewrite !andb_true_iff, !negb_true_iff.
  intros (H1 & H2 & H3 & H4 & H5 & H6 & _).
  unfold DateUpdate.clean_booking_id.
  now rewrite (replace_absent _ _ _ H1), (replace_absent _ _ _ H2),
    (replace_absent _ _ _ H3), (replace_absent _ _ _ H4),
    (replace_absent _ _ _ H5), (replace_absent _ _ _ H6).
Qed.

Lemma clean_column_cells ser :
  DateUpdate.clean_booking_id_column ser = map DateUpdate.clean_cell ser.
Proof.
  unfold DateUpdate.clean_booking_id_column, Pandas.str_replace.
  rewrite !map_map. apply map_ext. now intros [s| | |].
Qed.

(** C2. The claim: an identifier that starts with none of the six channel
    prefixes comes back unchanged.  The chain of line 8 removes the codes
    wherever they occur: [X-ENRO-1] starts with no prefix and yet becomes
    [X-1]. *)
Theorem clean_booking_id_inner_occurrence :
  DateUpdate.starts_with_channel "X-ENRO-1" = false /\
  DateUpdate.clean_booking_id "X-ENRO-1" = "X-1" /\
  DateUpdate.clean_booking_id_column [CStr "X-ENRO-1"] = [CStr "X-1"].
Proof. repeat split. Qed.

(** C3, as stated, fails: one pass of the chain can bring a prefix together
    that the second pass then removes. *)
Lemma clean_booking_id_not_idempotent :
  ~ (forall s, DateUpdate.clean_booking_id (DateUpdate.clean_booking_id s) =
               DateUpdate.clean_booking_id s).
Proof. intros H. specialize (H "ENTTG-RO-1"). discriminate H. Qed.

(** C3, amended. Once the prefixes are exhausted, that is when none of the
    six occurs in the normalized identifier, normalizing it again changes
    nothing. *)
Theorem clean_booking_id_idempotent_when_exhausted (s : string) :
  DateUpdate.exhausted (DateUpdate.clean_booking_id s) = true ->
  DateUpdate.clean_booking_id (DateUpdate.clean_booking_id s) =
  DateUpdate.clean_booking_id s.
Proof. apply clean_exhausted. Qed.

Lemma clean_booking_id_idempotent_when_exhausted_witness :
  DateUpdate.exhausted (DateUpdate.clean_booking_id "ENRO-12345") = true /\
  DateUpdate.clean_booking_id (DateUpdate.clean_booking_id "ENRO-12345") =
  DateUpdate.clean_booking_id "ENRO-12345".
Proof.
  split; [reflexivity |
          apply (clean_booking_id_idempotent_when_exhausted "ENRO-12345"); reflexivity].
Defined.

(** ** Printing *)

Section Emits.
Import Run.

Lemma emits_print s : emits (print s) [s].
Proof. intros out. reflexivity. Qed.

Lemma emits_ret : emits (ret tt) [].
Proof. intros out. unfold ret. now rewrite app_nil_r. Qed.

Lemma emits_then (m k : M unit) l1 l2 :
  emits m l1 -> emits k l2 -> emits (bind m (fun _ => k)) (l1 ++ l2).
Proof.
  intros Hm Hk out. unfold bind. rewrite Hm, Hk. now rewrite app_assoc.
Qed.

Lemma emits_print_then s (k : M unit) l :
  emits k l -> emits (bind (print s) (fun _ => k)) (s :: l).
Proof. intros Hk. apply (emits_then _ _ [s] l (emits_print s) Hk). Qed.

Lemma emits_lift_then {A : Type} (r : PyError + A) (a : A) (k : A -> M unit) l :
  r = inr a -> emits (k a) l -> emits (bind (lift r) k) l.
Proof. intros -> Hk out. unfold bind, lift. apply Hk. Qed.

Lemma emits_for_each {A : Type} (l : list A) (body : A -> M unit) (f : A -> list string) :
  (forall x, In x l -> emits (body x) (f x)) ->
  emits (for_each l body) (flat_map f l).
Proof.
  induction l as [|x l IH]; intros H; simpl.
  - apply emits_ret.
  - apply emits_then.
    + apply H. now left.
    + apply IH. intros y Hy. apply H. now right.
Qed.

(** Both scripts loop over the offsets and slice inside the body: that is a
    loop over the batches. *)
Lemma for_each_batches {A : Type} (size : nat) (rows : list A)
      (body : list A -> M unit) (out : list string) :
  for_each (Py.range0 (List.length rows) size)
           (fun i => body (Py.slice rows i (i + size))) out =
  for_each (Py.batches size rows) body out.
Proof.
  unfold Py.batches. revert out.
  induction (Py.range0 (List.length rows) size) as [|i l IH]; intros out; simpl.
  - reflexivity.
  - unfold bind. destruct (body (Py.slice rows i (i + size)) out) as [out' [e|[]]].
    + reflexivity.
    + apply IH.
Qed.

Lemma emits_run m l : emits m l -> run m = (l, None).
Proof. intros H. unfold run. now rewrite H. Qed.

Lemma raises_run {A : Type} (r : PyError + A) (e : PyError) (k : A -> M unit) :
  r = inl e -> run (bind (lift r) k) = ([], Some e).
Proof. now intros ->. Qed.

End Emits.

Lemma flat_map_map {A B C : Type} (f : B -> list C) (g : A -> B) (l : list A) :
  flat_map f (map g l) = flat_map (fun x => f (g x)) l.
Proof. induction l as [|x l IH]; simpl; [reflexivity | now rewrite IH]. Qed.

(** ** Tables *)

Lemma has_column_getitem df col :
  Pandas.has_column df col = true ->
  exists ser, Pandas.getitem df col = inr ser /\ In (col, ser) df.
Proof.
  unfold Pandas.has_column, Pandas.columns.
  induction df as [|[c ser] df IH]; simpl; [discriminate|].
  destruct (String.eqb_spec c col) as [->|Hne].
  - intros _. exists ser. split; [reflexivity | now left].
  - rewrite (proj2 (String.eqb_neq col c)) by congruence. simpl.
    intros H. destruct (IH H) as (s & Hs & Hin). exists s. split; [exact Hs | now right].
Qed.

Lemma no_column_getitem df col :
  Pandas.has_column df col = false -> Pandas.getitem df col = inl (KeyError col).
Proof.
  unfold Pandas.has_column, Pandas.columns.
  induction df as [|[c ser] df IH]; simpl; [reflexivity|].
  rewrite (String.eqb_sym col c).
  destruct (String.eqb c col); simpl; [discriminate | exact IH].
Qed.

Lemma getitem_has_column df col ser :
  Pandas.getitem df col = inr ser -> Pandas.has_column df col = true.
Proof.
  intros H. destruct (Pandas.has_column df col) eqn:E; [reflexivity|].
  rewrite (no_column_getitem _ _ E) in H. discriminate.
Qed.

Lemma getitem_setitem_same df col ser :
  Pandas.getitem (Pandas.setitem df col ser) col = inr ser.
Proof.
  induction df as [|[c old] df IH]; simpl.
  - now rewrite String.eqb_refl.
  - destruct (String.eqb c col) eqn:E; simpl; rewrite E; [reflexivity | exact IH].
Qed.

Lemma getitem_setitem_other df col ser col' :
  col <> col' ->
  Pandas.getitem (Pandas.setitem df col ser) col' = Pandas.getitem df col'.
Proof.
  intros Hne. induction df as [|[c old] df IH]; simpl.
  - now rewrite (proj2 (String.eqb_neq col col')).
  - destruct (String.eqb_spec c col) as [->|Hc]; simpl.
    + now rewrite (proj2 (String.eqb_neq col col')).
    + now rewrite IH.
Qed.

(** ** The status script, line by line *)

Section StatusLines.
Import Pandas Run StatusUpdate.

Lemma emits_ext (m : M unit) l l' : emits m l -> l = l' -> emits m l'.
Proof. now intros H <-. Qed.

Lemma status_emit_batch_emits status activity_ids i :
  emits (emit_batch status activity_ids i)
        (batch_lines status (Py.slice activity_ids i (i + batch_size))).
Proof.
  unfold emit_batch, batch_lines.
  repeat apply emits_print_then. apply emits_print.
Qed.

Lemma emit_status_emits statuses ids status :
  emits (emit_status statuses ids status) (status_lines statuses ids status).
Proof.
  unfold emit_status, status_lines.
  destruct (ids_with_status statuses ids status) as [|a activity_ids] eqn:E.
  - apply emits_ret.
  - change (0 <? List.length (a :: activity_ids))%nat with true. cbv iota.
    apply emits_print_then.
    eapply emits_ext.
    + apply emits_for_each. intros i _. apply status_emit_batch_emits.
    + unfold Py.batches. now rewrite flat_map_map.
Qed.

Lemma status_updates_emit statuses ids :
  emits (for_each (unique statuses) (emit_status statuses ids))
        (update_lines statuses ids).
Proof. apply emits_for_each. intros s _. apply emit_status_emits. Qed.

Lemma status_verification_emits ids :
  emits (emit_verification ids) (verification_lines ids).
Proof.
  unfold emit_verification, verification_lines.
  repeat apply emits_print_then. apply emits_print.
Qed.

Lemma find_status_col_truthy cols sc :
  find_status_col cols = Some sc -> truthy (Some sc) = true.
Proof.
  intros H. apply find_some in H. destruct H as [_ H].
  destruct sc; [discriminate H | reflexivity].
Qed.

Lemma find_status_col_getitem df sc :
  find_status_col (columns df) = Some sc -> exists ser, getitem df sc = inr ser.
Proof.
  intros H. apply find_some in H. destruct H as [Hin _].
  assert (has_column df sc = true) as Hc.
  { unfold has_column. apply existsb_exists. exists sc. split; [exact Hin | apply String.eqb_refl]. }
  destruct (has_column_getitem _ _ Hc) as (ser & Hser & _). now exists ser.
Qed.

Variable repr_columns : list string -> string.
Variable repr_value_counts : Series -> string.

(** With both columns there, the script prints its diagnostics, the updates
    of every status value, and the verification query, and ends normally. *)
Lemma status_script_emits df sc statuses ids :
  find_status_col (columns df) = Some sc ->
  getitem df sc = inr statuses ->
  getitem df "activity_booking_id" = inr ids ->
  emits (update_status_from_csv repr_columns repr_value_counts df)
        (diagnostics repr_columns repr_value_counts df sc statuses ids ++
         update_lines statuses ids ++ verification_lines ids).
Proof.
  intros Hfind Hst Hids.
  unfold update_status_from_csv.
  rewrite Hfind, (find_status_col_truthy _ _ Hfind), (getitem_has_column _ _ _ Hids).
  cbv iota. cbn [col_name].
  eapply emits_ext.
  - do 3 apply emits_print_then.
    apply emits_then.
    + apply emits_print_then. eapply emits_lift_then; [exact Hst|]. apply emits_print.
    + eapply emits_lift_then; [exact Hids|].
      do 3 apply emits_print_then.
      eapply emits_lift_then; [exact Hst|].
      apply emits_then; [apply status_updates_emit | apply status_verification_emits].
  - reflexivity.
Qed.

End StatusLines.

(** ** Equality of cells and grouping by status *)

Section Grouping.
Import Pandas StatusUpdate.

Lemma cell_same_refl c : cell_same c c = true.
Proof.
  destruct c as [s|z|t|]; simpl.
  - apply String.eqb_refl.
  - apply Z.eqb_refl.
  - unfold timestamp_eqb. now rewrite !Nat.eqb_refl.
  - reflexivity.
Qed.

Lemma cell_eq_refl c : c <> CNaN -> cell_eq c c = true.
Proof. destruct c; intros H; try congruence; apply cell_same_refl. Qed.

Lemma cell_eq_notna c s : cell_eq c s = true -> notna c = true.
Proof. now destruct c. Qed.

Lemma cell_eq_nan c : cell_eq c CNaN = false.
Proof. now destruct c. Qed.

Lemma seen_repeat c seen n :
  existsb (cell_same c) seen = true ->
  first_occurrences cell_same seen (repeat c n) = [].
Proof. intros H. induction n as [|n IH]; simpl; [reflexivity | now rewrite H]. Qed.

Lemma unique_repeat c n : unique (repeat c (S n)) = [c].
Proof.
  unfold unique. simpl. f_equal. apply seen_repeat.
  simpl. now rewrite cell_same_refl.
Qed.

Lemma ids_with_status_repeat s n ids :
  cell_eq s s = true -> ids_with_status (repeat s n) ids s = firstn n ids.
Proof.
  intros Hs. unfold ids_with_status. revert ids.
  induction n as [|n IH]; intros [|x ids]; simpl; try reflexivity.
  rewrite Hs. simpl. now rewrite IH.
Qed.

(** A missing status selects no row. *)
Lemma ids_with_status_nan statuses ids : ids_with_status statuses ids CNaN = [].
Proof.
  unfold ids_with_status. revert ids.
  induction statuses as [|c statuses IH]; intros [|x ids]; simpl; try reflexivity.
  rewrite cell_eq_nan. apply IH.
Qed.

(** The lines of a status value that selects some row. *)
Lemma status_lines_some status (activity_ids : list Cell) :
  activity_ids <> [] ->
  match activity_ids with
  | [] => []
  | _ :: _ =>
      (nl ++ "-- Update " ++ Py.str_nat (List.length activity_ids) ++
       " bookings to " ++ py_str status)
      :: flat_map (batch_lines status) (Py.batches batch_size activity_ids)
  end =
  (nl ++ "-- Update " ++ Py.str_nat (List.length activity_ids) ++
   " bookings to " ++ py_str status)
  :: flat_map (batch_lines status) (Py.batches batch_size activity_ids).
Proof. now destruct activity_ids. Qed.

End Grouping.

(** C6. On a table of exactly 150 identifiers that all carry one status
    value, the status script prints exactly two UPDATE statements for that
    status: the first lists the first 100 identifiers, the second the other
    50, and both set the status to that same value. *)
Theorem uniform_status_150
    (repr_columns : list string -> string) (repr_value_counts : Series -> string)
    (df : DataFrame) (sc : string) (status : Cell) (ids : Series) :
  StatusUpdate.find_status_col (Pandas.columns df) = Some sc ->
  Pandas.getitem df sc = inr (repeat status 150) ->
  Pandas.getitem df "activity_booking_id" = inr ids ->
  List.length ids = 150 ->
  status <> CNaN ->
  let set_line := "SET status = '" ++ Pandas.py_str status ++ "'" in
  let where_line batch :=
    "WHERE activity_booking_id IN (" ++ Py.join ", " (map Pandas.py_str batch) ++ ");" in
  let out := fst (Run.run (StatusUpdate.update_status_from_csv repr_columns repr_value_counts df)) in
  let updates :=
    [Pandas.nl ++ "-- Update 150 bookings to " ++ Pandas.py_str status;
     "UPDATE activity_bookings"; set_line; where_line (firstn 100 ids); "";
     "UPDATE activity_bookings"; set_line; where_line (skipn 100 ids); ""] in
  Run.run (StatusUpdate.update_status_from_csv repr_columns repr_value_counts df) =
    ((StatusUpdate.diagnostics repr_columns repr_value_counts df sc (repeat status 150) ids ++
      updates ++ StatusUpdate.verification_lines ids)%list, None) /\
  update_statements out = ["UPDATE activity_bookings"; "UPDATE activity_bookings"] /\
  List.length (firstn 100 ids) = 100 /\
  List.length (skipn 100 ids) = 50.
Proof.
  intros Hfind Hst Hids Hlen Hnan set_line where_line out updates.
  pose proof (emits_run _ _ (status_script_emits repr_columns repr_value_counts
                               df sc _ ids Hfind Hst Hids)) as E.
  assert (StatusUpdate.update_lines (repeat status 150) ids = updates) as U.
  { unfold StatusUpdate.update_lines. rewrite unique_repeat.
    cbn [flat_map]. rewrite app_nil_r.
    unfold StatusUpdate.status_lines.
    rewrite (ids_with_status_repeat status 150 ids (cell_eq_refl status Hnan)).
    rewrite (firstn_all2 (n := 150) ids) by lia.
    cbv zeta.
    rewrite (status_lines_some status ids) by (intros ->; discriminate Hlen).
    unfold Py.batches. rewrite Hlen.
    change (Py.range0 150 StatusUpdate.batch_size) with [0; 100].
    cbn [map flat_map]. rewrite app_nil_r.
    change (100 + StatusUpdate.batch_size) with (100 + 100).
    change (0 + StatusUpdate.batch_size) with (0 + 100).
    rewrite !slice_step. change (skipn 0 ids) with ids.
    rewrite (firstn_all2 (n := 100) (skipn 100 ids))
      by (rewrite length_skipn; lia).
    reflexivity. }
  subst out. rewrite E, U. cbn [fst].
  split; [reflexivity|]. split.
  - unfold update_statements. rewrite !filter_app. reflexivity.
  - rewrite length_firstn, length_skipn. lia.
Qed.

Lemma uniform_status_150_witness :
  StatusUpdate.find_status_col (Pandas.columns table_150) = Some "booking_status" /\
  update_statements
    (fst (Run.run (StatusUpdate.update_status_from_csv (fun _ => "") (fun _ => "") table_150))) =
  ["UPDATE activity_bookings"; "UPDATE activity_bookings"].
Proof.
  split; [reflexivity|].
  exact (proj1 (proj2
    (uniform_status_150 (fun _ => "") (fun _ => "") table_150 "booking_status"
       (CStr "confirmed") (map (fun n => CInt (Z.of_nat n)) (seq 1 150))
       eq_refl eq_refl eq_refl eq_refl ltac:(discriminate)))).
Defined.

(** ** Rows without a status *)

Section MissingStatus.
Import Pandas StatusUpdate.

Lemma combine_fst_snd {A B : Type} (l : list (A * B)) :
  combine (map fst l) (map snd l) = l.
Proof. induction l as [|[a b] l IH]; simpl; [reflexivity | now rewrite IH]. Qed.

Lemma with_status_fst statuses ids :
  List.length statuses = List.length ids ->
  map fst (with_status statuses ids) = filter notna statuses.
Proof.
  unfold with_status. revert ids.
  induction statuses as [|c statuses IH]; intros [|x ids] Hlen; simpl in *;
    try reflexivity; try discriminate.
  destruct (notna c); simpl; rewrite IH by lia; reflexivity.
Qed.

Lemma ids_with_status_kept statuses ids s :
  ids_with_status (map fst (with_status statuses ids))
                  (map snd (with_status statuses ids)) s =
  ids_with_status statuses ids s.
Proof.
  unfold ids_with_status. rewrite combine_fst_snd. f_equal.
  unfold with_status.
  induction (combine statuses ids) as [|[c x] l IH]; simpl; [reflexivity|].
  destruct (cell_eq c s) eqn:E.
  - rewrite (cell_eq_notna _ _ E). simpl. rewrite E. now rewrite IH.
  - destruct (notna c); simpl; [rewrite E|]; exact IH.
Qed.

Lemma first_occurrences_notna seen seen' l :
  (forall x, notna x = true ->
             existsb (cell_same x) seen = existsb (cell_same x) seen') ->
  first_occurrences cell_same seen (filter notna l) =
  filter notna (first_occurrences cell_same seen' l).
Proof.
  revert seen seen'. induction l as [|c l IH]; intros seen seen' H; simpl; [reflexivity|].
  destruct (notna c) eqn:Hc.
  - simpl. rewrite (H c Hc).
    destruct (existsb (cell_same c) seen').
    + now apply IH.
    + simpl. rewrite Hc. f_equal. apply IH.
      intros x Hx. simpl. now rewrite (H x Hx).
  - destruct (existsb (cell_same c) seen').
    + now apply IH.
    + simpl. rewrite Hc. apply IH.
      intros x Hx. simpl. rewrite (H x Hx).
      destruct c; try discriminate Hc. now destruct x.
Qed.

Lemma unique_notna statuses : unique (filter notna statuses) = filter notna (unique statuses).
Proof. unfold unique. now apply first_occurrences_notna. Qed.

Lemma status_lines_nan statuses ids : status_lines statuses ids CNaN = [].
Proof. unfold status_lines. now rewrite ids_with_status_nan. Qed.

Lemma flat_map_notna (f : Cell -> list string) l :
  f CNaN = [] -> flat_map f (filter notna l) = flat_map f l.
Proof.
  intros H. induction l as [|c l IH]; simpl; [reflexivity|].
  destruct c; simpl; rewrite ?H, IH; reflexivity.
Qed.

(** The updates are those of the table without the rows whose status is
    missing. *)
Lemma update_lines_with_status statuses ids :
  List.length statuses = List.length ids ->
  update_lines (map fst (with_status statuses ids)) (map snd (with_status statuses ids)) =
  update_lines statuses ids.
Proof.
  intros Hlen. unfold update_lines.
  rewrite (with_status_fst _ _ Hlen) at 2.
  rewrite unique_notna.
  rewrite (flat_map_ext _ (status_lines statuses ids)).
  - apply flat_map_notna. apply status_lines_nan.
  - intros s. unfold status_lines. now rewrite ids_with_status_kept.
Qed.

End MissingStatus.

(** C10. In the status script a row whose status is missing (NaN) is in no
    UPDATE statement: the NaN group selects no row and prints nothing, so the
    updates are those of the table restricted to the rows with a status.  The
    verification query still lists the identifiers of all rows.  On the
    three-row sample table the updates name 1 and 3 while the verification
    names 1, 2 and 3. *)
Theorem missing_status_not_updated_but_verified
    (repr_columns : list string -> string) (repr_value_counts : Series -> string)
    (df : DataFrame) (sc : string) (statuses ids : Series) :
  StatusUpdate.find_status_col (Pandas.columns df) = Some sc ->
  Pandas.getitem df sc = inr statuses ->
  Pandas.getitem df "activity_booking_id" = inr ids ->
  List.length statuses = List.length ids ->
  let kept := StatusUpdate.with_status statuses ids in
  (forall out, StatusUpdate.emit_status statuses ids CNaN out = (out, inr tt)) /\
  Run.run (StatusUpdate.update_status_from_csv repr_columns repr_value_counts df) =
    ((StatusUpdate.diagnostics repr_columns repr_value_counts df sc statuses ids ++
      StatusUpdate.update_lines (map fst kept) (map snd kept) ++
      StatusUpdate.verification_lines ids)%list, None) /\
  skipn 8 (fst (Run.run (StatusUpdate.update_status_from_csv
                           repr_columns repr_value_counts table_missing_status))) =
    [Pandas.nl ++ "-- Update 2 bookings to ok";
     "UPDATE activity_bookings";
     "SET status = 'ok'";
     "WHERE activity_booking_id IN (1, 3);";
     "";
     Pandas.nl ++ "-- Verification query";
     "SELECT status, COUNT(*) as count";
     "FROM activity_bookings";
     "WHERE activity_booking_id IN (1, 2, 3)";
     "GROUP BY status;"].
Proof.
  intros Hfind Hst Hids Hlen kept. split; [|split].
  - intros out. unfold StatusUpdate.emit_status.
    now rewrite ids_with_status_nan.
  - subst kept. rewrite (update_lines_with_status _ _ Hlen).
    apply emits_run. now apply status_script_emits.
  - reflexivity.
Qed.

Lemma missing_status_not_updated_but_verified_witness :
  StatusUpdate.with_status [CStr "ok"; CNaN; CStr "ok"] [CInt 1; CInt 2; CInt 3] =
    [(CStr "ok", CInt 1); (CStr "ok", CInt 3)] /\
  fst (Run.run (StatusUpdate.update_status_from_csv (fun _ => "") (fun _ => "")
                  table_missing_status)) =
    (StatusUpdate.diagnostics (fun _ => "") (fun _ => "") table_missing_status "status"
       [CStr "ok"; CNaN; CStr "ok"] [CInt 1; CInt 2; CInt 3] ++
     StatusUpdate.update_lines [CStr "ok"; CStr "ok"] [CInt 1; CInt 3] ++
     StatusUpdate.verification_lines [CInt 1; CInt 2; CInt 3])%list.
Proof.
  split; [reflexivity|].
  exact (f_equal fst (proj1 (proj2
    (missing_status_not_updated_but_verified (fun _ => "") (fun _ => "")
       table_missing_status "status"
       [CStr "ok"; CNaN; CStr "ok"] [CInt 1; CInt 2; CInt 3]
       eq_refl eq_refl eq_refl eq_refl)))).
Defined.

(** ** The date script, line by line *)

Section DateLines.
Import Pandas Run DateUpdate.

Variable parse_datetime : Cell -> PyError + option Timestamp.

Lemma flat_map_singleton {A B : Type} (f : A -> B) (l : list A) :
  flat_map (fun x => [f x]) l = map f l.
Proof. induction l as [|x l IH]; simpl; [reflexivity | now rewrite IH]. Qed.

Lemma emit_when_emits (r : string * Timestamp) :
  emits (emit_when parse_datetime (dated r))
        [when_line (fst r, strftime_ts (snd r))].
Proof. intros out. reflexivity. Qed.

Lemma emit_whens_emit (batch : list (string * Timestamp)) :
  emits (for_each (map dated batch) (emit_when parse_datetime))
        (map when_line (whens (statement_of batch))).
Proof.
  eapply emits_ext.
  - apply (emits_for_each _ _
             (fun row => match row with
                         | (CStr k, CTime t) => [when_line (k, strftime_ts t)]
                         | _ => []
                         end)).
    intros row Hin. apply in_map_iff in Hin. destruct Hin as (r & <- & _).
    apply emit_when_emits.
  - rewrite flat_map_map. unfold dated. cbn [fst snd statement_of whens].
    rewrite map_map. apply flat_map_singleton.
Qed.

Lemma join_keys_text (keys : list string) :
  join_keys (map CStr keys) = inr (Py.join "', '" keys).
Proof.
  unfold join_keys.
  assert (existsb is_missing (map CStr keys) = false) as ->
    by (induction keys; simpl; auto).
  now rewrite map_map, map_id.
Qed.

Lemma date_emit_batch_emits i (batch : list (string * Timestamp)) :
  emits (emit_batch parse_datetime i (map dated batch)) (batch_lines i batch).
Proof.
  unfold emit_batch, batch_lines, render.
  eapply emits_ext.
  - do 3 apply emits_print_then.
    apply emits_then; [apply emit_whens_emit|].
    do 2 apply emits_print_then.
    eapply emits_lift_then; [|apply emits_print].
    rewrite map_map. cbn [fst dated]. rewrite <- (map_map fst CStr).
    apply join_keys_text.
  - reflexivity.
Qed.

Lemma when_lines_no_update (ws : list (string * string)) :
  filter (prefix "UPDATE") (map when_line ws) = [].
Proof. induction ws as [|w ws IH]; simpl; [reflexivity | exact IH]. Qed.

End DateLines.

(** ** The printed statement read as SQL *)

Section Reading.
Import Pandas DateUpdate.

Lemma string_app_assoc (a b c : string) : (a ++ b) ++ c = a ++ (b ++ c).
Proof. induction a as [|x a IH]; simpl; [reflexivity | now rewrite IH]. Qed.


Lemma strip_prefix_append p s : strip_prefix p (p ++ s) = Some s.
Proof.
  induction p as [|a p IH]; simpl; [reflexivity|].
  now rewrite Ascii.eqb_refl.
Qed.



Lemma read_list_literal k tail :
  no_quote k ->
  read_list true (k ++ String "'" tail) =
  match read_list false tail with
  | Some lits => Some (k :: lits)
  | None => None
  end.
Proof.
  unfold no_quote. induction k as [|c k IH]; intros H.
  - reflexivity.
  - cbn [Py.has_char] in H. apply orb_false_elim in H. destruct H as [Hc Hk].
    cbn [append read_list]. rewrite Hc, (IH Hk).
    now destruct (read_list false tail).
Qed.

Lemma read_list_keys k keys :
  Forall no_quote (k :: keys) ->
  read_list false (String "'" (Py.join "', '" (k :: keys) ++ "');")) = Some (k :: keys).
Proof.
  revert k. induction keys as [|k2 keys IH]; intros k H;
    inversion H as [|? ? Hk Hrest]; subst.
  - transitivity (read_list true (k ++ String "'" ");")); [reflexivity|].
    now rewrite (read_list_literal k _ Hk).
  - transitivity
      (read_list true
         (k ++ String "'" (", " ++ String "'" (Py.join "', '" (k2 :: keys) ++ "');")))).
    + change (Py.join "', '" (k :: k2 :: keys))
        with (k ++ "', '" ++ Py.join "', '" (k2 :: keys)).
      rewrite !string_app_assoc. reflexivity.
    + rewrite (read_list_literal k _ Hk).
      transitivity
        (match read_list false (String "'" (Py.join "', '" (k2 :: keys) ++ "');")) with
         | Some lits => Some (k :: lits)
         | None => None
         end); [reflexivity|].
      now rewrite (IH k2 Hrest).
Qed.

Lemma read_in_where keys :
  keys <> [] -> Forall no_quote keys ->
  read_in ("WHERE booking_id::text IN ('" ++ Py.join "', '" keys ++ "');") = Some keys.
Proof.
  intros Hne H. destruct keys as [|k keys]; [congruence|].
  unfold read_in.
  change ("WHERE booking_id::text IN ('" ++ Py.join "', '" (k :: keys) ++ "');")
    with ("WHERE booking_id::text IN (" ++
          String "'" (Py.join "', '" (k :: keys) ++ "');")).
  rewrite strip_prefix_append. now apply read_list_keys.
Qed.







End Reading.



Example two_bookings_run :
  Run.run (DateUpdate.generate_update_sql (fun _ => inl ValueError) table_two_bookings) =
  ((DateUpdate.preamble_lines 2 ++
    DateUpdate.batch_lines 0 [("1", mkTimestamp 2024 1 1 0 0 0);
                              ("2", mkTimestamp 2024 1 2 0 0 0)] ++
    DateUpdate.verification_lines [CStr "1"; CStr "2"])%list, None).
Proof. reflexivity. Qed.



(** ** Tables without rows, tables without a column *)

Section Columns.
Import Pandas Run.

Lemma empty_column df col :
  Forall (fun c => snd c = []) df -> has_column df col = true -> getitem df col = inr [].
Proof.
  intros Hall Hcol. destruct (has_column_getitem _ _ Hcol) as (ser & Hser & Hin).
  rewrite Forall_forall in Hall. specialize (Hall _ Hin). simpl in Hall. now subst ser.
Qed.

Lemma str_accessor_inr ser text : str_accessor ser = inr text -> text = ser.
Proof.
  unfold str_accessor. destruct ser as [|c ser]; [congruence|].
  destruct (existsb is_str (c :: ser) || (existsb is_int (c :: ser) && existsb is_time (c :: ser)));
    congruence.
Qed.

Lemma str_then_replace_inr old new ser out :
  DateUpdate.str_then_replace old new ser = inr out -> out = str_replace old new ser.
Proof.
  unfold DateUpdate.str_then_replace.
  destruct (str_accessor ser) as [e|text] eqn:E; [discriminate|].
  apply str_accessor_inr in E. subst text. congruence.
Qed.

(** When line 8 goes through, the new column holds the six replacements. *)
Lemma clean_column_inr ids cleaned :
  DateUpdate.clean_column ids = inr cleaned ->
  cleaned = DateUpdate.clean_booking_id_column ids.
Proof.
  unfold DateUpdate.clean_column, DateUpdate.and_then, DateUpdate.clean_booking_id_column.
  destruct (DateUpdate.str_then_replace "ENRO-" "" ids) as [|s1] eqn:E1; [discriminate|].
  destruct (DateUpdate.str_then_replace "TTG-" "" s1) as [|s2] eqn:E2; [discriminate|].
  destruct (DateUpdate.str_then_replace "PRO-" "" s2) as [|s3] eqn:E3; [discriminate|].
  destruct (DateUpdate.str_then_replace "VIA-" "" s3) as [|s4] eqn:E4; [discriminate|].
  destruct (DateUpdate.str_then_replace "HED-" "" s4) as [|s5] eqn:E5; [discriminate|].
  intros E6.
  apply str_then_replace_inr in E1, E2, E3, E4, E5, E6. now subst.
Qed.

Lemma str_replace_is_str old new ser :
  existsb is_str (str_replace old new ser) = existsb is_str ser.
Proof.
  unfold str_replace. induction ser as [|c ser IH]; simpl; [reflexivity|].
  rewrite IH. now destruct c.
Qed.

Lemma text_column_replace old new ser :
  DateUpdate.text_column (str_replace old new ser) = DateUpdate.text_column ser.
Proof.
  destruct ser as [|c ser]; [reflexivity|].
  unfold DateUpdate.text_column.
  change (str_replace old new (c :: ser))
    with (str_replace_cell old new c :: str_replace old new ser) at 1.
  cbv iota. apply str_replace_is_str.
Qed.

Lemma str_then_replace_text old new ser :
  DateUpdate.text_column ser = true ->
  DateUpdate.str_then_replace old new ser = inr (str_replace old new ser).
Proof.
  intros H. unfold DateUpdate.str_then_replace, str_accessor.
  destruct ser as [|c ser]; [reflexivity|].
  unfold DateUpdate.text_column in H. now rewrite H.
Qed.

(** On a column of text all six links of line 8 go through. *)
Lemma clean_column_text ids :
  DateUpdate.text_column ids = true ->
  DateUpdate.clean_column ids = inr (DateUpdate.clean_booking_id_column ids).
Proof.
  intros H. unfold DateUpdate.clean_column, DateUpdate.and_then,
    DateUpdate.clean_booking_id_column.
  repeat (rewrite str_then_replace_text by (rewrite ?text_column_replace; exact H)).
  reflexivity.
Qed.

Variable parse_datetime : Cell -> PyError + option Timestamp.

Lemma date_script_zero_rows df :
  Forall (fun c => snd c = []) df ->
  has_column df "booking_id" = true ->
  has_column df "creation_date" = true ->
  emits (DateUpdate.generate_update_sql parse_datetime df)
        (DateUpdate.preamble_lines 0 ++ DateUpdate.verification_lines [])%list.
Proof.
  intros Hall Hb Hc. unfold DateUpdate.generate_update_sql.
  eapply emits_lift_then; [apply (empty_column _ _ Hall Hb)|].
  eapply emits_lift_then; [reflexivity|]. cbv beta zeta.
  eapply emits_lift_then; [apply getitem_setitem_same|].
  eapply emits_lift_then.
  { rewrite getitem_setitem_other by discriminate. apply (empty_column _ _ Hall Hc). }
  eapply emits_ext.
  - do 4 apply emits_print_then.
    apply emits_then; [apply emits_ret|].
    unfold DateUpdate.emit_verification.
    do 3 apply emits_print_then.
    eapply emits_lift_then; [reflexivity|]. apply emits_print.
  - reflexivity.
Qed.

Lemma date_script_no_booking_id df :
  has_column df "booking_id" = false ->
  run (DateUpdate.generate_update_sql parse_datetime df) = ([], Some (KeyError "booking_id")).
Proof.
  intros H. unfold DateUpdate.generate_update_sql.
  apply raises_run. now apply no_column_getitem.
Qed.

Lemma date_script_no_creation_date df :
  has_column df "creation_date" = false ->
  exists e, run (DateUpdate.generate_update_sql parse_datetime df) = ([], Some e).
Proof.
  intros H. unfold DateUpdate.generate_update_sql.
  destruct (getitem df "booking_id") as [e|booking_id] eqn:Eb.
  - exists e. now apply raises_run.
  - destruct (DateUpdate.clean_column booking_id) as [e|text] eqn:Et.
    + exists e. unfold run, bind, lift. now rewrite Et.
    + exists (KeyError "creation_date").
      unfold run, bind, lift. rewrite Et. cbv beta zeta.
      rewrite getitem_setitem_same.
      rewrite getitem_setitem_other by discriminate.
      now rewrite (no_column_getitem _ _ H).
Qed.

End Columns.

Section StatusColumns.
Import Pandas Run StatusUpdate.

Variable repr_columns : list string -> string.
Variable repr_value_counts : Series -> string.

Lemma status_script_no_ids df :
  has_column df "activity_booking_id" = false ->
  emits (update_status_from_csv repr_columns repr_value_counts df)
        (header_lines repr_columns df ++ status_report repr_value_counts df ++
         ["activity_booking_id column not found!"]).
Proof.
  intros H. unfold update_status_from_csv, status_report. rewrite H.
  destruct (find_status_col (columns df)) as [sc|] eqn:Hfind.
  - rewrite (find_status_col_truthy _ _ Hfind). cbv iota. cbn [col_name].
    destruct (find_status_col_getitem _ _ Hfind) as (ser & Hser). rewrite Hser.
    eapply emits_ext.
    + do 3 apply emits_print_then.
      apply emits_then; [|apply emits_print].
      apply emits_print_then. eapply emits_lift_then; [reflexivity|]. apply emits_print.
    + reflexivity.
  - cbn [truthy]. cbv iota.
    eapply emits_ext.
    + do 3 apply emits_print_then.
      apply emits_then; apply emits_print.
    + reflexivity.
Qed.

Lemma status_script_no_status df ids :
  find_status_col (columns df) = None ->
  getitem df "activity_booking_id" = inr ids ->
  emits (update_status_from_csv repr_columns repr_value_counts df)
        (header_lines repr_columns df ++ status_report repr_value_counts df ++
         sql_header_lines ids).
Proof.
  intros Hfind Hids. unfold update_status_from_csv, status_report.
  rewrite Hfind, (getitem_has_column _ _ _ Hids). cbn [truthy]. cbv iota.
  eapply emits_ext.
  - do 3 apply emits_print_then.
    apply emits_then; [apply emits_print|].
    eapply emits_lift_then; [exact Hids|].
    do 2 apply emits_print_then.
    apply emits_then; [apply emits_print | apply emits_ret].
  - reflexivity.
Qed.

Lemma report_no_statement df :
  update_statements (header_lines repr_columns df ++ status_report repr_value_counts df) = [] /\
  select_statements (header_lines repr_columns df ++ status_report repr_value_counts df) = [].
Proof.
  unfold update_statements, select_statements, status_report.
  rewrite !filter_app. destruct (find_status_col (columns df)); split; reflexivity.
Qed.

End StatusColumns.

(** C7. On a table without rows each script prints no UPDATE statement and
    still prints its verification query, once; the key list of that query is
    the join of the empty sequence of keys. *)
Theorem no_rows_no_update
    (parse_datetime : Cell -> PyError + option Timestamp)
    (repr_columns : list string -> string) (repr_value_counts : Series -> string)
    (xlsx csv : DataFrame) (sc : string) :
  Forall (fun c => snd c = []) xlsx ->
  Pandas.has_column xlsx "booking_id" = true ->
  Pandas.has_column xlsx "creation_date" = true ->
  Forall (fun c => snd c = []) csv ->
  StatusUpdate.find_status_col (Pandas.columns csv) = Some sc ->
  Pandas.has_column csv "activity_booking_id" = true ->
  let date_run := Run.run (DateUpdate.generate_update_sql parse_datetime xlsx) in
  let status_run :=
    Run.run (StatusUpdate.update_status_from_csv repr_columns repr_value_counts csv) in
  (date_run =
     ((DateUpdate.preamble_lines 0 ++ DateUpdate.verification_lines [])%list, None) /\
   DateUpdate.verification_lines [] =
     ["

-- Verification query to check the updates";
      "SELECT COUNT(*) as updated_count, MIN(created_at) as min_date, MAX(created_at) as max_date";
      "FROM activity_bookings";
      "WHERE booking_id::text IN ('');"] /\
   update_statements (fst date_run) = [] /\
   List.length (select_statements (fst date_run)) = 1) /\
  (status_run =
     ((StatusUpdate.diagnostics repr_columns repr_value_counts csv sc [] [] ++
       StatusUpdate.verification_lines [])%list, None) /\
   StatusUpdate.verification_lines [] =
     ["
-- Verification query";
      "SELECT status, COUNT(*) as count";
      "FROM activity_bookings";
      "WHERE activity_booking_id IN ()";
      "GROUP BY status;"] /\
   update_statements (fst status_run) = [] /\
   List.length (select_statements (fst status_run)) = 1).
Proof.
  intros Hx Hb Hd Hc Hfind Hids date_run status_run.
  assert (date_run =
          ((DateUpdate.preamble_lines 0 ++ DateUpdate.verification_lines [])%list, None)) as Ed.
  { apply emits_run. now apply date_script_zero_rows. }
  assert (status_run =
          ((StatusUpdate.diagnostics repr_columns repr_value_counts csv sc [] [] ++
            StatusUpdate.update_lines [] [] ++ StatusUpdate.verification_lines [])%list,
           None)) as Es.
  { apply emits_run. apply status_script_emits; [exact Hfind | |].
    - destruct (find_status_col_getitem _ _ Hfind) as (ser & Hser).
      apply (empty_column _ _ Hc).
      now apply (getitem_has_column _ _ ser).
    - now apply empty_column. }
  split.
  - rewrite Ed. repeat split.
  - rewrite Es. repeat split.
Qed.

Lemma no_rows_no_update_witness :
  Forall (fun c => snd c = []) table_no_rows_xlsx /\
  Forall (fun c => snd c = []) table_no_rows_csv /\
  update_statements
    (fst (Run.run (DateUpdate.generate_update_sql (fun _ => inl ValueError)
                     table_no_rows_xlsx))) = [] /\
  update_statements
    (fst (Run.run (StatusUpdate.update_status_from_csv (fun _ => "") (fun _ => "")
                     table_no_rows_csv))) = [].
Proof.
  assert (Forall (fun c : string * Series => snd c = []) table_no_rows_xlsx) as Hx
    by (repeat constructor).
  assert (Forall (fun c : string * Series => snd c = []) table_no_rows_csv) as Hc
    by (repeat constructor).
  pose proof (no_rows_no_update (fun _ => inl ValueError) (fun _ => "") (fun _ => "")
                table_no_rows_xlsx table_no_rows_csv "status"
                Hx eq_refl eq_refl Hc eq_refl eq_refl) as H.
  cbv zeta in H.
  exact (conj Hx (conj Hc (conj (proj1 (proj2 (proj2 (proj1 H))))
                                (proj1 (proj2 (proj2 (proj2 H))))))).
Defined.

(** C8. The two scripts treat an absent column differently.  The status
    script tests for [activity_booking_id] and, when it is absent, prints
    [activity_booking_id column not found!] and no statement; when no status
    column is found it prints [Status column not found!] and no statement
    either (only the comment lines of the SQL header).  Both runs end
    normally.  The date script tests nothing: without [booking_id] it ends in
    an uncaught [KeyError] before printing anything, and without
    [creation_date] in an uncaught exception as well. *)
Theorem missing_columns
    (parse_datetime : Cell -> PyError + option Timestamp)
    (repr_columns : list string -> string) (repr_value_counts : Series -> string)
    (df : DataFrame) :
  let status_run :=
    Run.run (StatusUpdate.update_status_from_csv repr_columns repr_value_counts df) in
  let date_run := Run.run (DateUpdate.generate_update_sql parse_datetime df) in
  (Pandas.has_column df "activity_booking_id" = false ->
   status_run =
     ((StatusUpdate.header_lines repr_columns df ++
       StatusUpdate.status_report repr_value_counts df ++
       ["activity_booking_id column not found!"])%list, None) /\
   update_statements (fst status_run) = [] /\
   select_statements (fst status_run) = []) /\
  (StatusUpdate.find_status_col (Pandas.columns df) = None ->
   forall ids, Pandas.getitem df "activity_booking_id" = inr ids ->
   status_run =
     ((StatusUpdate.header_lines repr_columns df ++
       ["
Status column not found!"] ++
       StatusUpdate.sql_header_lines ids)%list, None) /\
   update_statements (fst status_run) = [] /\
   select_statements (fst status_run) = []) /\
  (Pandas.has_column df "booking_id" = false ->
   date_run = ([], Some (KeyError "booking_id"))) /\
  (Pandas.has_column df "creation_date" = false ->
   exists e, date_run = ([], Some e)).
Proof.
  intros status_run date_run.
  split; [intros Hno | split; [intros Hfind ids Hids | split]].
  - pose proof (emits_run _ _ (status_script_no_ids repr_columns repr_value_counts df Hno)) as E.
    destruct (report_no_statement repr_columns repr_value_counts df) as [Hu Hs].
    subst status_run. rewrite E. cbn [fst]. split; [reflexivity|].
    unfold update_statements, select_statements in *.
    rewrite !app_assoc, !(filter_app _ (_ ++ _)%list), Hu, Hs. now split.
  - pose proof (emits_run _ _ (status_script_no_status repr_columns repr_value_counts
                                 df ids Hfind Hids)) as E.
    unfold StatusUpdate.status_report in E. rewrite Hfind in E.
    subst status_run. rewrite E. repeat split.
  - now apply date_script_no_booking_id.
  - now apply date_script_no_creation_date.
Qed.

Lemma missing_columns_witness :
  Pandas.has_column table_no_ids "activity_booking_id" = false /\
  StatusUpdate.find_status_col (Pandas.columns table_no_status) = None /\
  Pandas.has_column table_no_status "booking_id" = false /\
  Pandas.has_column table_no_dates "creation_date" = false /\
  fst (Run.run (StatusUpdate.update_status_from_csv (fun _ => "") (fun _ => "") table_no_ids)) =
    ["File info:"; "Total rows: 1"; "Columns: "; "
Found status column: status"; "Status values: ";
     "activity_booking_id column not found!"] /\
  update_statements
    (fst (Run.run (StatusUpdate.update_status_from_csv (fun _ => "") (fun _ => "")
                     table_no_status))) = [] /\
  Run.run (DateUpdate.generate_update_sql (fun _ => inl ValueError) table_no_status) =
    ([], Some (KeyError "booking_id")) /\
  exists e,
    Run.run (DateUpdate.generate_update_sql (fun _ => inl ValueError) table_no_dates) =
    ([], Some e).
Proof.
  pose proof (missing_columns (fun _ => inl ValueError) (fun _ => "") (fun _ => "")
                table_no_ids) as A.
  pose proof (missing_columns (fun _ => inl ValueError) (fun _ => "") (fun _ => "")
                table_no_status) as B.
  pose proof (missing_columns (fun _ => inl ValueError) (fun _ => "") (fun _ => "")
                table_no_dates) as C.
  cbv zeta in A, B, C.
  do 4 (split; [reflexivity|]).
  split; [exact (f_equal fst (proj1 (proj1 A eq_refl)))|].
  split; [exact (proj1 (proj2 (proj1 (proj2 B) eq_refl [CInt 1%Z] eq_refl)))|].
  split; [exact (proj1 (proj2 (proj2 B)) eq_refl)|].
  exact (proj2 (proj2 (proj2 C)) eq_refl).
Defined.

(** * Further properties of the scripts *)

(** ** More on the Batcher *)

Section BatcherShape.
Context {A : Type}.
Implicit Types (rows : list A) (size : nat).

Lemma range_len_lt stop size k :
  1 <= size -> k < Py.range_len stop size -> k * size < stop.
Proof.
  intros Hs. unfold Py.range_len.
  pose proof (Nat.div_mod_eq (stop + size - 1) size) as E.
  pose proof (Nat.mod_upper_bound (stop + size - 1) size ltac:(lia)) as U.
  intros Hk. nia.
Qed.

Lemma range_len_least stop size k :
  1 <= size -> k * size < stop -> k < Py.range_len stop size.
Proof.
  intros Hs Hk. unfold Py.range_len.
  pose proof (Nat.div_mod_eq (stop + size - 1) size) as E.
  pose proof (Nat.mod_upper_bound (stop + size - 1) size ltac:(lia)) as U.
  nia.
Qed.

Lemma batches_length size rows :
  List.length (Py.batches size rows) = Py.range_len (List.length rows) size.
Proof. now rewrite batches_unfold, length_map, length_seq. Qed.

Lemma batches_nth_some size rows k :
  k < Py.range_len (List.length rows) size ->
  nth_error (Py.batches size rows) k = Some (firstn size (skipn (k * size) rows)).
Proof.
  intros Hk. rewrite batches_unfold, nth_error_map.
  rewrite (nth_error_nth' _ 0) by (now rewrite length_seq).
  now rewrite seq_nth.
Qed.

Lemma batch_nonempty size rows b :
  1 <= size -> In b (Py.batches size rows) -> 1 <= List.length b.
Proof.
  intros Hs Hin. apply In_nth_error in Hin. destruct Hin as [k Hk].
  apply batches_nth in Hk. destruct Hk as [-> Hk].
  pose proof (range_len_lt _ _ _ Hs Hk).
  rewrite length_firstn, length_skipn. lia.
Qed.

(** The batches put back together (the statement of C1, for use below). *)
Lemma batches_cover size rows :
  1 <= size -> List.concat (Py.batches size rows) = rows.
Proof.
  intros Hs. rewrite batches_unfold, concat_slices.
  apply firstn_all2. now apply range_len_covers.
Qed.

End BatcherShape.

(** X1. For a batch size of at least 1 no batch of the slicing loop is
    empty, and the number [n] of batches is the least one with
    [len(rows) <= n * size]: an empty sequence gives no batch at all. *)
Theorem batches_count {A : Type} (size : nat) (rows : list A) :
  1 <= size ->
  let n := List.length (Py.batches size rows) in
  Forall (fun b => 1 <= List.length b) (Py.batches size rows) /\
  List.length rows <= n * size /\
  (forall m, List.length rows <= m * size -> n <= m).
Proof.
  intros Hs n. subst n. rewrite batches_length. split; [|split].
  - apply Forall_forall. intros b Hb. now apply (batch_nonempty size rows).
  - now apply range_len_covers.
  - intros m Hm.
    destruct (Nat.le_gt_cases (Py.range_len (List.length rows) size) m) as [|Hlt];
      [assumption|].
    pose proof (range_len_lt _ _ _ Hs Hlt). lia.
Qed.

Lemma batches_count_witness :
  1 <= 50 /\
  List.length (Py.batches 50 (seq 0 120)) = 3 /\
  Forall (fun b => 1 <= List.length b) (Py.batches 50 (seq 0 120)).
Proof.
  split; [lia|]. split; [reflexivity|].
  exact (proj1 (batches_count 50 (seq 0 120) ltac:(lia))).
Defined.

(** X2. For a batch size of at least 1 the row at position [j] of the
    sequence is the row at position [j mod size] of batch number
    [j / size]. *)
Theorem batch_position {A : Type} (size : nat) (rows : list A) (j : nat) :
  1 <= size ->
  j < List.length rows ->
  exists b,
    nth_error (Py.batches size rows) (j / size) = Some b /\
    nth_error b (j mod size) = nth_error rows j.
Proof.
  intros Hs Hj.
  pose proof (Nat.div_mod_eq j size) as E.
  pose proof (Nat.mod_upper_bound j size ltac:(lia)) as U.
  exists (firstn size (skipn (j / size * size) rows)). split.
  - apply batches_nth_some. apply range_len_least; [assumption|]. nia.
  - rewrite nth_error_firstn.
    destruct (Nat.ltb_spec (j mod size) size); [|lia].
    rewrite nth_error_skipn. f_equal. lia.
Qed.

Lemma batch_position_witness :
  1 <= 50 /\ 70 < List.length (seq 0 120) /\
  exists b,
    nth_error (Py.batches 50 (seq 0 120)) (70 / 50) = Some b /\
    nth_error b (70 mod 50) = nth_error (seq 0 120) 70.
Proof.
  split; [lia|]. split; [vm_compute; lia|].
  apply (batch_position 50 (seq 0 120) 70); [lia | vm_compute; lia].
Defined.

(** ** More on the Key Normalizer *)

Lemma prefix_has_char c p s :
  prefix p s = true -> Py.has_char c p = true -> Py.has_char c s = true.
Proof.
  revert s. induction p as [|a p IH]; intros s Hp Hc; [discriminate Hc|].
  destruct s as [|b s]; [discriminate Hp|].
  simpl in Hp. destruct (ascii_dec a b) as [->|]; [|discriminate Hp].
  simpl in *. destruct (Ascii.eqb c b); [reflexivity|]. simpl in *. now apply IH.
Qed.

Lemma contains_no_char c p s :
  Py.has_char c p = true -> Py.has_char c s = false -> Py.contains p s = false.
Proof.
  intros Hp. induction s as [|b s IH]; intros Hs.
  - cbn [Py.contains]. destruct (prefix p "") eqn:E; [|reflexivity].
    now rewrite (prefix_has_char c p "" E Hp) in Hs.
  - cbn [Py.contains]. destruct (prefix p (String b s)) eqn:E.
    + now rewrite (prefix_has_char c p _ E Hp) in Hs.
    + simpl in Hs. apply orb_false_elim in Hs. simpl. now apply IH.
Qed.

Lemma no_hyphen_exhausted s :
  Py.has_char "-" s = false -> DateUpdate.exhausted s = true.
Proof.
  intros H. unfold DateUpdate.exhausted, DateUpdate.channel_prefixes. cbn [forallb].
  now rewrite !(contains_no_char "-" _ s) by (reflexivity || exact H).
Qed.

Lemma replace_delete_length old s skip :
  String.length (Py.replace_from old "" skip s) <= String.length s.
Proof.
  revert skip. induction s as [|c s IH]; intros skip; [simpl; lia|].
  cbn [Py.replace_from]. destruct skip as [|k].
  - destruct (prefix old (String c s)).
    + cbn [append String.length]. specialize (IH (String.length old - 1)). lia.
    + cbn [String.length]. specialize (IH 0). lia.
  - cbn [String.length]. specialize (IH k). lia.
Qed.

Lemma replace_nonempty_delete_length c old s :
  String.length (Py.replace (String c old) "" s) <= String.length s.
Proof. apply replace_delete_length. Qed.

(** X3. An identifier without a hyphen is returned unchanged by the
    normalizer of line 8, whatever else it holds. *)
Theorem clean_booking_id_no_hyphen (s : string) :
  Py.has_char "-" s = false -> DateUpdate.clean_booking_id s = s.
Proof. intros H. apply clean_exhausted. now apply no_hyphen_exhausted. Qed.

Lemma clean_booking_id_no_hyphen_witness :
  Py.has_char "-" "ENRO12345" = false /\ DateUpdate.clean_booking_id "ENRO12345" = "ENRO12345".
Proof.
  split; [reflexivity | apply (clean_booking_id_no_hyphen "ENRO12345"); reflexivity].
Defined.

(** X4. For each of the six channel prefixes and every remainder without a
    hyphen, the normalizer of line 8 maps prefix + remainder to the
    remainder, and normalizing again changes nothing. *)
Theorem clean_booking_id_strips_prefix (p body : string) :
  In p DateUpdate.channel_prefixes ->
  Py.has_char "-" body = false ->
  DateUpdate.clean_booking_id (p ++ body) = body /\
  DateUpdate.clean_booking_id (DateUpdate.clean_booking_id (p ++ body)) =
  DateUpdate.clean_booking_id (p ++ body).
Proof.
  intros Hp Hb.
  assert (forall q, Py.has_char "-" q = true -> Py.contains q body = false) as Hq
    by (intros q Hh; now apply (contains_no_char "-")).
  assert (DateUpdate.clean_booking_id (p ++ body) = body) as E.
  { unfold DateUpdate.channel_prefixes in Hp. simpl in Hp.
    unfold DateUpdate.clean_booking_id.
    destruct Hp as [<-|[<-|[<-|[<-|[<-|[<-|[]]]]]]];
      repeat first
        [ rewrite replace_match; cbn [append]
        | rewrite (replace_absent _ _ body) by (apply Hq; reflexivity)
        | rewrite (replace_absent _ _ (_ ++ body)) by (simpl; apply Hq; reflexivity) ];
      reflexivity. }
  split; [exact E|]. rewrite E. apply clean_exhausted. now apply no_hyphen_exhausted.
Qed.

Lemma clean_booking_id_strips_prefix_witness :
  In "VIA-" DateUpdate.channel_prefixes /\
  Py.has_char "-" "98765" = false /\
  DateUpdate.clean_booking_id ("VIA-" ++ "98765") = "98765".
Proof.
  assert (In "VIA-" DateUpdate.channel_prefixes) as Hin
    by (right; right; right; left; reflexivity).
  split; [exact Hin|]. split; [reflexivity|].
  exact (proj1 (clean_booking_id_strips_prefix "VIA-" "98765" Hin eq_refl)).
Defined.

(** X5. The normalizer of line 8 only deletes: its result is never longer
    than the identifier. *)
Theorem clean_booking_id_length (s : string) :
  String.length (DateUpdate.clean_booking_id s) <= String.length s.
Proof.
  unfold DateUpdate.clean_booking_id.
  repeat (etransitivity; [apply replace_nonempty_delete_length|]). lia.
Qed.

(** ** Distinct rows and status groups *)

Section FirstOccurrences.
Context {A : Type} (same : A -> A -> bool).
Hypothesis same_eq : forall a b, same a b = true <-> a = b.

Lemma existsb_same x seen : existsb (same x) seen = true <-> In x seen.
Proof.
  rewrite existsb_exists. split.
  - intros (y & Hy & E). apply same_eq in E. now subst.
  - intros H. exists x. split; [exact H | now apply same_eq].
Qed.

Lemma first_occurrences_In seen l x :
  In x (Pandas.first_occurrences same seen l) <-> In x l /\ ~ In x seen.
Proof.
  revert seen. induction l as [|y l IH]; intros seen; simpl; [tauto|].
  destruct (existsb (same y) seen) eqn:E.
  - apply existsb_same in E. rewrite IH. split.
    + intros [H1 H2]. tauto.
    + intros [[->|H1] H2]; tauto.
  - assert (~ In y seen) as Hy
      by (intros H; apply existsb_same in H; congruence).
    simpl. rewrite IH. simpl. split.
    + intros [->|[H1 H2]]; tauto.
    + intros [[->|H1] H2]; [tauto|].
      destruct (same y x) eqn:Eyx.
      * apply same_eq in Eyx. tauto.
      * right. split; [exact H1|]. intros [->|H]; [|tauto].
        assert (same x x = true) by now apply same_eq. congruence.
Qed.

Lemma first_occurrences_NoDup seen l : NoDup (Pandas.first_occurrences same seen l).
Proof.
  revert seen. induction l as [|y l IH]; intros seen; simpl; [constructor|].
  destruct (existsb (same y) seen); [apply IH|].
  constructor; [|apply IH].
  rewrite first_occurrences_In. simpl. tauto.
Qed.

Lemma first_occurrences_fixed seen l :
  NoDup l -> (forall x, In x l -> ~ In x seen) ->
  Pandas.first_occurrences same seen l = l.
Proof.
  revert seen. induction l as [|y l IH]; intros seen Hnd Hseen; simpl; [reflexivity|].
  inversion Hnd as [|? ? Hy Hl]; subst.
  destruct (existsb (same y) seen) eqn:E.
  - apply existsb_same in E. exfalso. apply (Hseen y); [now left | exact E].
  - f_equal. apply IH; [exact Hl|].
    intros x Hx [->|H]; [tauto|]. apply (Hseen x); [now right | exact H].
Qed.

End FirstOccurrences.

Lemma timestamp_eqb_eq a b : Pandas.timestamp_eqb a b = true <-> a = b.
Proof.
  destruct a, b. unfold Pandas.timestamp_eqb. simpl.
  rewrite !andb_true_iff, !Nat.eqb_eq. split.
  - intros [[[[[-> ->] ->] ->] ->] ->]. reflexivity.
  - intros E. injection E as -> -> -> -> -> ->. tauto.
Qed.

Lemma cell_same_eq a b : Pandas.cell_same a b = true <-> a = b.
Proof.
  destruct a, b; simpl; try (split; [discriminate | congruence]).
  - rewrite String.eqb_eq. split; congruence.
  - rewrite Z.eqb_eq. split; congruence.
  - rewrite timestamp_eqb_eq. split; congruence.
  - tauto.
Qed.

Lemma row_same_eq a b : Pandas.row_same a b = true <-> a = b.
Proof.
  destruct a, b. unfold Pandas.row_same. simpl.
  rewrite andb_true_iff, !cell_same_eq. split; [intros [-> ->] | intros E; injection E]; tauto.
Qed.

(** X6. [drop_duplicates] (line 11 of the date script) keeps exactly the
    rows of its input, each once, and leaves a sequence without repeated
    rows as it is; applying it twice is applying it once. *)
Theorem drop_duplicates_distinct (rows : list (Cell * Cell)) :
  NoDup (Pandas.drop_duplicates rows) /\
  (forall r, In r (Pandas.drop_duplicates rows) <-> In r rows) /\
  (NoDup rows -> Pandas.drop_duplicates rows = rows) /\
  Pandas.drop_duplicates (Pandas.drop_duplicates rows) = Pandas.drop_duplicates rows.
Proof.
  unfold Pandas.drop_duplicates.
  assert (forall l, NoDup l -> Pandas.first_occurrences Pandas.row_same [] l = l) as Hfix
    by (intros l Hl; apply (first_occurrences_fixed _ row_same_eq); [exact Hl | now intros x _ []]).
  pose proof (first_occurrences_NoDup _ row_same_eq [] rows) as Hnd.
  repeat split.
  - exact Hnd.
  - intros H. now apply (first_occurrences_In _ row_same_eq) in H.
  - intros H. apply (first_occurrences_In _ row_same_eq). simpl. tauto.
  - apply Hfix.
  - now apply Hfix.
Qed.

Lemma drop_duplicates_distinct_witness :
  NoDup [(CStr "1", CNaN); (CStr "2", CNaN)] /\
  Pandas.drop_duplicates [(CStr "1", CNaN); (CStr "2", CNaN)] =
  [(CStr "1", CNaN); (CStr "2", CNaN)].
Proof.
  assert (NoDup [(CStr "1", CNaN); (CStr "2", CNaN)]) as H.
  { constructor; [simpl; intros [E|[]]; discriminate E|].
    constructor; [simpl; tauto | constructor]. }
  split; [exact H|].
  exact (proj1 (proj2 (proj2 (drop_duplicates_distinct _))) H).
Defined.

Section Partition.
Import Pandas StatusUpdate.

Lemma cell_eq_true_iff c s : notna c = true -> (cell_eq c s = true <-> c = s).
Proof.
  intros Hc. destruct c; try discriminate Hc; destruct s; simpl;
    try (split; [discriminate | congruence]).
  - rewrite String.eqb_eq. split; congruence.
  - rewrite Z.eqb_eq. split; congruence.
  - rewrite timestamp_eqb_eq. split; congruence.
Qed.

Lemma flat_map_ext_in {X Y : Type} (f g : X -> list Y) l :
  (forall x, In x l -> f x = g x) -> flat_map f l = flat_map g l.
Proof.
  induction l as [|x l IH]; intros H; simpl; [reflexivity|].
  rewrite (H x) by now left. f_equal. apply IH. intros y Hy. apply H. now right.
Qed.

Lemma flat_map_nil {X Y : Type} (l : list X) : flat_map (fun _ => @nil Y) l = [].
Proof. induction l; simpl; auto. Qed.

Lemma group_insert (c x : Cell) (g : Cell -> list Cell) (U : list Cell) :
  notna c = true -> NoDup U -> In c U ->
  Permutation (flat_map (fun s => if cell_eq c s then x :: g s else g s) U)
              (x :: flat_map g U).
Proof.
  intros Hc. induction U as [|s U IH]; intros Hnd Hin; [destruct Hin|].
  inversion Hnd as [|? ? Hs HU]; subst. simpl.
  destruct (cell_eq c s) eqn:E.
  - apply (cell_eq_true_iff c s Hc) in E. subst s. simpl.
    apply perm_skip. apply Permutation_app_head.
    rewrite (flat_map_ext_in _ g); [reflexivity|].
    intros y Hy. destruct (cell_eq c y) eqn:Ey; [|reflexivity].
    apply (cell_eq_true_iff c y Hc) in Ey. now subst y.
  - destruct Hin as [->|Hin].
    + assert (cell_eq c c = true) by now apply cell_eq_true_iff. congruence.
    + rewrite (IH HU Hin). apply Permutation_sym, Permutation_middle.
Qed.

Lemma groups_partition (l : list (Cell * Cell)) (U : list Cell) :
  NoDup U ->
  (forall c, In c (map fst l) -> In c U) ->
  Permutation
    (flat_map (fun s => map snd (filter (fun r => cell_eq (fst r) s) l)) U)
    (map snd (filter (fun r => notna (fst r)) l)).
Proof.
  intros Hnd. induction l as [|[c x] l IH]; intros HU.
  - simpl. now rewrite flat_map_nil.
  - assert (forall c', In c' (map fst l) -> In c' U) as HU'
      by (intros c' H; apply HU; now right).
    rewrite (flat_map_ext _
               (fun s => if cell_eq c s
                         then x :: map snd (filter (fun r => cell_eq (fst r) s) l)
                         else map snd (filter (fun r => cell_eq (fst r) s) l)))
      by (intros s; simpl; now destruct (cell_eq c s)).
    simpl. destruct (notna c) eqn:Hc.
    + simpl. rewrite group_insert; [| exact Hc | exact Hnd | apply HU; now left].
      apply perm_skip. now apply IH.
    + rewrite (flat_map_ext_in _
                 (fun s => map snd (filter (fun r => cell_eq (fst r) s) l))).
      * now apply IH.
      * intros s _. destruct c; try discriminate Hc. reflexivity.
Qed.

End Partition.

(** X7. The loop over [unique()] of the status column (lines 35-37) visits
    every status value once, and the groups it selects, taken together, hold
    the identifiers of exactly the rows that have a status, each as often as
    it occurs: no such row is left out and none is updated twice. *)
Theorem status_groups_partition (statuses ids : Series) :
  NoDup (Pandas.unique statuses) /\
  (forall s, In s (Pandas.unique statuses) <-> In s statuses) /\
  Permutation
    (flat_map (StatusUpdate.ids_with_status statuses ids) (Pandas.unique statuses))
    (map snd (StatusUpdate.with_status statuses ids)).
Proof.
  unfold Pandas.unique. split; [|split].
  - apply (first_occurrences_NoDup _ cell_same_eq).
  - intros s. rewrite (first_occurrences_In _ cell_same_eq). simpl. tauto.
  - apply groups_partition.
    + apply (first_occurrences_NoDup _ cell_same_eq).
    + intros c Hc. apply (first_occurrences_In _ cell_same_eq). split; [|now intros []].
      apply in_map_iff in Hc. destruct Hc as ([c' x] & <- & Hin).
      now apply in_combine_l in Hin.
Qed.

(** ** The status script on an arbitrary table *)

Lemma filter_flat_map_length {X Y : Type} (P : Y -> bool) (f : X -> list Y) l :
  List.length (filter P (flat_map f l)) =
  list_sum (map (fun x => List.length (filter P (f x))) l).
Proof.
  induction l as [|x l IH]; simpl; [reflexivity|].
  now rewrite filter_app, length_app, IH.
Qed.

Lemma filter_flat_map_nil {X Y : Type} (P : Y -> bool) (f : X -> list Y) l :
  (forall x, filter P (f x) = []) -> filter P (flat_map f l) = [].
Proof.
  intros H. induction l as [|x l IH]; simpl; [reflexivity|].
  now rewrite filter_app, H, IH.
Qed.

Lemma list_sum_ones {X : Type} (l : list X) : list_sum (map (fun _ => 1) l) = List.length l.
Proof. induction l; simpl; auto. Qed.

Section StatusCount.
Import Pandas Run StatusUpdate.

Lemma status_lines_updates statuses ids s :
  List.length (update_statements (status_lines statuses ids s)) =
  Py.range_len (List.length (ids_with_status statuses ids s)) batch_size.
Proof.
  unfold status_lines, update_statements.
  destruct (ids_with_status statuses ids s) as [|x group]; [reflexivity|].
  cbn [filter]. change (prefix "UPDATE" (nl ++ _)) with false. cbv iota.
  rewrite filter_flat_map_length.
  rewrite (map_ext _ (fun _ => 1)) by reflexivity.
  now rewrite list_sum_ones, batches_length.
Qed.

Lemma status_lines_no_select statuses ids s :
  select_statements (status_lines statuses ids s) = [].
Proof.
  unfold status_lines, select_statements.
  destruct (ids_with_status statuses ids s) as [|x group]; [reflexivity|].
  cbn [filter]. change (prefix "SELECT" (nl ++ _)) with false. cbv iota.
  now apply filter_flat_map_nil.
Qed.

End StatusCount.

(** X8. With its two columns in the table, the status script ends normally
    and prints, for every status value, one UPDATE statement per batch of
    100 identifiers of its group (none for a group without rows), and after
    them a single SELECT, the verification query. *)
Theorem status_script_statement_count
    (repr_columns : list string -> string) (repr_value_counts : Series -> string)
    (df : DataFrame) (sc : string) (statuses ids : Series) :
  StatusUpdate.find_status_col (Pandas.columns df) = Some sc ->
  Pandas.getitem df sc = inr statuses ->
  Pandas.getitem df "activity_booking_id" = inr ids ->
  let result := Run.run (StatusUpdate.update_status_from_csv repr_columns repr_value_counts df) in
  snd result = None /\
  List.length (update_statements (fst result)) =
    list_sum (map (fun s => Py.range_len
                              (List.length (StatusUpdate.ids_with_status statuses ids s)) 100)
                  (Pandas.unique statuses)) /\
  select_statements (fst result) = ["SELECT status, COUNT(*) as count"].
Proof.
  intros Hfind Hst Hids result. subst result.
  rewrite (emits_run _ _ (status_script_emits repr_columns repr_value_counts
                            df sc statuses ids Hfind Hst Hids)).
  cbn [fst snd]. split; [reflexivity|]. split.
  - unfold update_statements. rewrite !filter_app, !length_app.
    change (filter (prefix "UPDATE")
              (StatusUpdate.diagnostics repr_columns repr_value_counts df sc statuses ids))
      with (@nil string).
    change (filter (prefix "UPDATE") (StatusUpdate.verification_lines ids)) with (@nil string).
    cbn [List.length Nat.add]. rewrite Nat.add_0_r.
    unfold StatusUpdate.update_lines. rewrite filter_flat_map_length.
    apply f_equal, map_ext. intros s. apply status_lines_updates.
  - unfold select_statements. rewrite !filter_app.
    change (filter (prefix "SELECT")
              (StatusUpdate.diagnostics repr_columns repr_value_counts df sc statuses ids))
      with (@nil string).
    unfold StatusUpdate.update_lines.
    rewrite (filter_flat_map_nil _ _ _ (status_lines_no_select statuses ids)).
    reflexivity.
Qed.

Lemma status_script_statement_count_witness :
  StatusUpdate.find_status_col (Pandas.columns table_missing_status) = Some "status" /\
  List.length (update_statements
    (fst (Run.run (StatusUpdate.update_status_from_csv (fun _ => "") (fun _ => "")
                     table_missing_status)))) = 1.
Proof.
  split; [reflexivity|].
  exact (proj1 (proj2
    (status_script_statement_count (fun _ => "") (fun _ => "") table_missing_status
       "status" [CStr "ok"; CNaN; CStr "ok"] [CInt 1; CInt 2; CInt 3]
       eq_refl eq_refl eq_refl))).
Defined.

(** X9. The status script never ends in an exception: whatever columns the
    table has, every column it indexes was found before (lines 14-17 and the
    test of line 26). *)
Theorem status_script_ends_normally
    (repr_columns : list string -> string) (repr_value_counts : Series -> string)
    (df : DataFrame) :
  snd (Run.run (StatusUpdate.update_status_from_csv repr_columns repr_value_counts df)) = None.
Proof.
  destruct (Pandas.has_column df "activity_booking_id") eqn:Hc.
  - destruct (has_column_getitem _ _ Hc) as (ids & Hids & _).
    destruct (StatusUpdate.find_status_col (Pandas.columns df)) as [sc|] eqn:Hfind.
    + destruct (find_status_col_getitem _ _ Hfind) as (statuses & Hst).
      now rewrite (emits_run _ _ (status_script_emits repr_columns repr_value_counts
                                    df sc statuses ids Hfind Hst Hids)).
    + now rewrite (emits_run _ _ (status_script_no_status repr_columns repr_value_counts
                                    df ids Hfind Hids)).
  - now rewrite (emits_run _ _ (status_script_no_ids repr_columns repr_value_counts df Hc)).
Qed.

(** ** The date script on an arbitrary table *)

Section DateRun.
Import Pandas Run DateUpdate.

Variable parse_datetime : Cell -> PyError + option Timestamp.

Lemma slice_map {X Y : Type} (f : X -> Y) (l : list X) i j :
  Py.slice (map f l) i j = map f (Py.slice l i j).
Proof. unfold Py.slice. now rewrite skipn_map, firstn_map. Qed.

Lemma when_lines_no_select (ws : list (string * string)) :
  filter (prefix "SELECT") (map when_line ws) = [].
Proof. induction ws as [|w ws IH]; simpl; [reflexivity | exact IH]. Qed.

Lemma date_batch_one_update i (batch : list (string * Timestamp)) :
  update_statements (batch_lines i batch) = ["UPDATE activity_bookings"] /\
  select_statements (batch_lines i batch) = [].
Proof.
  unfold update_statements, select_statements, batch_lines, render.
  cbn [filter app].
  change (prefix "UPDATE" (nl ++ _)) with false.
  change (prefix "SELECT" (nl ++ _)) with false.
  change (prefix "UPDATE" "UPDATE activity_bookings") with true.
  change (prefix "SELECT" "UPDATE activity_bookings") with false.
  change (prefix "UPDATE" "SET created_at = CASE booking_id::text") with false.
  change (prefix "SELECT" "SET created_at = CASE booking_id::text") with false.
  cbv iota. rewrite !filter_app, when_lines_no_update, when_lines_no_select.
  split; reflexivity.
Qed.

Lemma py_str_text (keys : list string) : map py_str (map CStr keys) = keys.
Proof. induction keys as [|k keys IH]; simpl; [reflexivity | now rewrite IH]. Qed.

(** The script on a table whose identifier column is text and whose distinct
    rows all carry a text key and a timestamp. *)
Lemma date_script_emits df ids dates (rows : list (string * Timestamp)) :
  getitem df "booking_id" = inr ids ->
  text_column ids = true ->
  getitem df "creation_date" = inr dates ->
  drop_duplicates (combine (clean_booking_id_column ids) dates) = map dated rows ->
  emits (generate_update_sql parse_datetime df)
        (preamble_lines (List.length rows) ++
         flat_map (fun i => batch_lines i (Py.slice rows i (i + batch_size)))
                  (Py.range0 (List.length rows) batch_size) ++
         verification_lines (map CStr (map fst rows))).
Proof.
  intros Hb Hs Hd Hu. unfold generate_update_sql.
  eapply emits_lift_then; [exact Hb|].
  eapply emits_lift_then; [apply (clean_column_text _ Hs)|]. cbv beta zeta.
  eapply emits_lift_then; [apply getitem_setitem_same|].
  eapply emits_lift_then.
  { rewrite getitem_setitem_other by discriminate. exact Hd. }
  rewrite Hu, !length_map.
  eapply emits_ext.
  - do 4 apply emits_print_then.
    apply emits_then.
    + apply (emits_for_each _ _
               (fun i => batch_lines i (Py.slice rows i (i + batch_size)))).
      intros i _. rewrite slice_map. apply date_emit_batch_emits.
    + unfold emit_verification.
      do 3 apply emits_print_then.
      eapply emits_lift_then; [|apply emits_print].
      rewrite map_map. cbn [fst dated]. rewrite <- (map_map fst CStr).
      apply join_keys_text.
  - unfold preamble_lines, verification_lines, where_in. cbn [app].
    rewrite py_str_text. reflexivity.
Qed.

End DateRun.

(** X10. When the identifier column is a column of text and every distinct
    row carries a text key and a timestamp, the date script ends normally;
    it prints one UPDATE statement per batch of 50 distinct rows (the number
    of rows divided by 50, rounded up) and after them a single SELECT, the
    verification query over the keys of all distinct rows. *)
Theorem date_script_statement_count
    (parse_datetime : Cell -> PyError + option Timestamp)
    (df : DataFrame) (ids dates : Series) (rows : list (string * Timestamp)) :
  Pandas.getitem df "booking_id" = inr ids ->
  DateUpdate.text_column ids = true ->
  Pandas.getitem df "creation_date" = inr dates ->
  Pandas.drop_duplicates (combine (DateUpdate.clean_booking_id_column ids) dates) =
    map DateUpdate.dated rows ->
  let result := Run.run (DateUpdate.generate_update_sql parse_datetime df) in
  result =
    ((DateUpdate.preamble_lines (List.length rows) ++
      flat_map (fun i => DateUpdate.batch_lines i (Py.slice rows i (i + 50)))
               (Py.range0 (List.length rows) 50) ++
      DateUpdate.verification_lines (map CStr (map fst rows)))%list, None) /\
  List.length (update_statements (fst result)) = (List.length rows + 49) / 50 /\
  List.length (select_statements (fst result)) = 1.
Proof.
  intros Hb Hs Hd Hu result. subst result.
  rewrite (emits_run _ _ (date_script_emits parse_datetime df ids dates rows Hb Hs Hd Hu)).
  cbn [fst]. split; [reflexivity|]. split.
  - unfold update_statements. rewrite !filter_app, !length_app.
    change (filter (prefix "UPDATE") (DateUpdate.preamble_lines (List.length rows)))
      with (@nil string).
    change (filter (prefix "UPDATE")
              (DateUpdate.verification_lines (map CStr (map fst rows))))
      with (@nil string).
    cbn [List.length Nat.add]. rewrite Nat.add_0_r, filter_flat_map_length.
    rewrite (map_ext _ (fun _ => 1)).
    + rewrite list_sum_ones. unfold Py.range0. rewrite length_map, length_seq.
      unfold Py.range_len, DateUpdate.batch_size. f_equal. lia.
    + intros i. now rewrite (proj1 (date_batch_one_update i _)).
  - unfold select_statements. rewrite !filter_app.
    change (filter (prefix "SELECT") (DateUpdate.preamble_lines (List.length rows)))
      with (@nil string).
    rewrite filter_flat_map_nil by (intros i; apply date_batch_one_update).
    reflexivity.
Qed.

Lemma date_script_statement_count_witness :
  Pandas.getitem table_two_bookings "booking_id" = inr [CStr "ENRO-1"; CStr "ENRO-2"] /\
  DateUpdate.text_column [CStr "ENRO-1"; CStr "ENRO-2"] = true /\
  List.length (update_statements
    (fst (Run.run (DateUpdate.generate_update_sql (fun _ => inl ValueError)
                     table_two_bookings)))) = (2 + 49) / 50.
Proof.
  split; [reflexivity|]. split; [reflexivity|].
  exact (proj1 (proj2
    (date_script_statement_count (fun _ => inl ValueError) table_two_bookings
       [CStr "ENRO-1"; CStr "ENRO-2"]
       [CTime (mkTimestamp 2024 1 1 0 0 0); CTime (mkTimestamp 2024 1 2 0 0 0)]
       [("1", mkTimestamp 2024 1 1 0 0 0); ("2", mkTimestamp 2024 1 2 0 0 0)]
       eq_refl eq_refl eq_refl eq_refl))).
Defined.

(** ** A date that is missing *)

Section Abort.
Import Pandas Run DateUpdate.

Lemma prints_only_print {Q : string -> Prop} s : Q s -> prints_only Q (print s).
Proof. intros H out. exists [s]. split; [reflexivity | now constructor]. Qed.

Lemma prints_only_lift {A : Type} {Q : string -> Prop} (r : PyError + A) :
  prints_only Q (lift r).
Proof. intros out. exists []. rewrite app_nil_r. split; [reflexivity | constructor]. Qed.

Lemma prints_only_ret {Q : string -> Prop} : prints_only Q (ret tt).
Proof. intros out. exists []. rewrite app_nil_r. split; [reflexivity | constructor]. Qed.

Lemma prints_only_bind {A B : Type} {Q : string -> Prop} (m : M A) (k : A -> M B) :
  prints_only Q m -> (forall a, prints_only Q (k a)) -> prints_only Q (bind m k).
Proof.
  intros Hm Hk out. destruct (Hm out) as (l1 & E1 & F1). unfold bind.
  destruct (m out) as [out' [e|a]]; simpl in E1; subst out'.
  - exists l1. split; [reflexivity | exact F1].
  - destruct (Hk a (out ++ l1)%list) as (l2 & E2 & F2).
    exists (l1 ++ l2)%list. rewrite E2, app_assoc.
    split; [reflexivity | apply Forall_app; now split].
Qed.

Lemma prints_only_for_each {A : Type} {Q : string -> Prop} (l : list A) (body : A -> M unit) :
  (forall x, prints_only Q (body x)) -> prints_only Q (for_each l body).
Proof.
  intros H. induction l as [|x l IH]; simpl.
  - apply prints_only_ret.
  - apply prints_only_bind; [apply H | intros _; exact IH].
Qed.

Lemma raises_bind_l {A B : Type} (m : M A) (k : A -> M B) :
  raises m -> raises (bind m k).
Proof.
  intros H out. destruct (H out) as [e E]. unfold bind.
  destruct (m out) as [out' [e'|a]]; simpl in E; [now exists e' | discriminate E].
Qed.

Lemma raises_bind_r {A B : Type} (m : M A) (k : A -> M B) :
  (forall a, raises (k a)) -> raises (bind m k).
Proof.
  intros H out. unfold bind.
  destruct (m out) as [out' [e|a]]; [now exists e | apply H].
Qed.

Lemma raises_for_each {A : Type} (l : list A) (body : A -> M unit) x :
  In x l -> raises (body x) -> raises (for_each l body).
Proof.
  intros Hin Hx. induction l as [|y l IH]; [destruct Hin|]. simpl.
  destruct Hin as [->|Hin].
  - now apply raises_bind_l.
  - apply raises_bind_r. intros _. now apply IH.
Qed.

Lemma filter_none {X : Type} (P : X -> bool) (l : list X) :
  Forall (fun x => P x = false) l -> filter P l = [].
Proof. induction 1 as [|x l Hx _ IH]; simpl; [reflexivity | now rewrite Hx]. Qed.

Variable parse_datetime : Cell -> PyError + option Timestamp.

Lemma emit_when_no_select row : prints_only not_select (emit_when parse_datetime row).
Proof.
  unfold emit_when.
  apply prints_only_bind; [apply prints_only_lift|]. intros d.
  apply prints_only_bind; [apply prints_only_lift|]. intros creation_date.
  now apply prints_only_print.
Qed.

Lemma emit_batch_no_select i batch : prints_only not_select (emit_batch parse_datetime i batch).
Proof.
  unfold emit_batch.
  repeat first
    [ apply prints_only_bind; [|intros ?]
    | apply prints_only_print; reflexivity
    | apply prints_only_lift
    | apply prints_only_for_each; intros row; apply emit_when_no_select ].
Qed.

Lemma emit_when_missing key : raises (emit_when parse_datetime (key, CNaN)).
Proof. intros out. now exists ValueError. Qed.

Lemma emit_batch_missing i batch key :
  In (key, CNaN) batch -> raises (emit_batch parse_datetime i batch).
Proof.
  intros Hin. unfold emit_batch.
  do 3 (apply raises_bind_r; intros _).
  apply raises_bind_l. apply (raises_for_each _ _ (key, CNaN) Hin), emit_when_missing.
Qed.

Lemma batch_loop_missing (unique_bookings : list (Cell * Cell)) key :
  In (key, CNaN) unique_bookings ->
  raises (for_each (Py.range0 (List.length unique_bookings) batch_size)
                   (fun i => emit_batch parse_datetime i
                               (Py.slice unique_bookings i (i + batch_size)))).
Proof.
  intros Hin.
  rewrite <- (batches_cover batch_size unique_bookings) in Hin
    by (unfold batch_size; lia).
  apply in_concat in Hin. destruct Hin as (b & Hb & Hrow).
  unfold Py.batches in Hb. apply in_map_iff in Hb. destruct Hb as (i & <- & Hi).
  apply (raises_for_each _ _ i Hi). now apply (emit_batch_missing _ _ key).
Qed.

End Abort.

(** X11. When the identifier column is a column of text and some distinct
    booking has no creation date (NaT), the date script does not finish:
    after its four opening lines it ends in an uncaught exception inside the
    batch loop, and the verification query is never printed. *)
Theorem date_script_missing_date
    (parse_datetime : Cell -> PyError + option Timestamp)
    (df : DataFrame) (ids dates : Series) (key : Cell) :
  Pandas.getitem df "booking_id" = inr ids ->
  DateUpdate.text_column ids = true ->
  Pandas.getitem df "creation_date" = inr dates ->
  In (key, CNaN) (combine (DateUpdate.clean_booking_id_column ids) dates) ->
  let unique_bookings :=
    Pandas.drop_duplicates (combine (DateUpdate.clean_booking_id_column ids) dates) in
  let result := Run.run (DateUpdate.generate_update_sql parse_datetime df) in
  (exists e, snd result = Some e) /\
  (exists rest,
     fst result = (DateUpdate.preamble_lines (List.length unique_bookings) ++ rest)%list) /\
  select_statements (fst result) = [].
Proof.
  intros Hb Hs Hd Hin unique_bookings result.
  assert (In (key, CNaN) unique_bookings) as Hu
    by (apply (first_occurrences_In _ row_same_eq); split; [exact Hin | now intros []]).
  pose proof (batch_loop_missing parse_datetime unique_bookings key Hu) as Hraise.
  assert (Run.prints_only not_select
            (Run.for_each (Py.range0 (List.length unique_bookings) DateUpdate.batch_size)
               (fun i => DateUpdate.emit_batch parse_datetime i
                           (Py.slice unique_bookings i (i + DateUpdate.batch_size)))))
    as Hprint
    by (apply prints_only_for_each; intros i; apply emit_batch_no_select).
  destruct (Hraise (DateUpdate.preamble_lines (List.length unique_bookings))) as [e He].
  destruct (Hprint (DateUpdate.preamble_lines (List.length unique_bookings)))
    as (lines & El & Fl).
  assert (result =
          ((DateUpdate.preamble_lines (List.length unique_bookings) ++ lines)%list, Some e))
    as E.
  { subst result. unfold Run.run, DateUpdate.generate_update_sql.
    unfold Run.bind at 1. unfold Run.lift at 1. rewrite Hb.
    unfold Run.bind at 1. unfold Run.lift at 1.
    rewrite (clean_column_text _ Hs). cbv beta zeta.
    unfold Run.bind at 1. unfold Run.lift at 1. rewrite getitem_setitem_same.
    unfold Run.bind at 1. unfold Run.lift at 1.
    rewrite getitem_setitem_other by discriminate. rewrite Hd.
    fold unique_bookings. rewrite length_map.
    do 5 (unfold Run.bind at 1). unfold Run.print.
    change ((((([] ++ [?a]) ++ [?b]) ++ [?c]) ++ [?d])%list) with [a; b; c; d].
    fold (DateUpdate.preamble_lines (List.length unique_bookings)).
    destruct (Run.for_each _ _ (DateUpdate.preamble_lines (List.length unique_bookings)))
      as [out' [e'|[]]]; simpl in He, El; [|discriminate He].
    now injection He as ->; subst out'. }
  rewrite E. cbn [fst snd]. split; [now exists e|]. split; [now exists lines|].
  unfold select_statements. rewrite filter_app.
  now rewrite (filter_none _ lines Fl).
Qed.

Lemma date_script_missing_date_witness :
  DateUpdate.text_column [CStr "ENRO-1"; CStr "ENRO-2"] = true /\
  In (CStr "2", CNaN)
     (combine (DateUpdate.clean_booking_id_column [CStr "ENRO-1"; CStr "ENRO-2"])
              [CTime (mkTimestamp 2024 1 1 0 0 0); CNaN]) /\
  select_statements
    (fst (Run.run (DateUpdate.generate_update_sql (fun _ => inl ValueError)
                     table_missing_date))) = [].
Proof.
  assert (In (CStr "2", CNaN)
            (combine (DateUpdate.clean_booking_id_column [CStr "ENRO-1"; CStr "ENRO-2"])
                     [CTime (mkTimestamp 2024 1 1 0 0 0); CNaN])) as Hin
    by (right; left; reflexivity).
  split; [reflexivity|]. split; [exact Hin|].
  exact (proj2 (proj2
    (date_script_missing_date (fun _ => inl ValueError) table_missing_date
       [CStr "ENRO-1"; CStr "ENRO-2"] [CTime (mkTimestamp 2024 1 1 0 0 0); CNaN]
       (CStr "2") eq_refl eq_refl eq_refl Hin))).
Defined.

(** ** Columns *)

Lemma columns_setitem_present df col ser :
  Pandas.has_column df col = true ->
  Pandas.columns (Pandas.setitem df col ser) = Pandas.columns df.
Proof.
  unfold Pandas.has_column, Pandas.columns.
  induction df as [|[c old] df IH]; simpl; [discriminate|].
  rewrite (String.eqb_sym col c).
  destruct (String.eqb c col) eqn:E; simpl; [reflexivity|].
  intros H. now rewrite IH.
Qed.

Lemma columns_setitem_absent df col ser :
  Pandas.has_column df col = false ->
  Pandas.columns (Pandas.setitem df col ser) = (Pandas.columns df ++ [col])%list.
Proof.
  unfold Pandas.has_column, Pandas.columns.
  induction df as [|[c old] df IH]; simpl; [reflexivity|].
  rewrite (String.eqb_sym col c).
  destruct (String.eqb c col) eqn:E; simpl; [discriminate|].
  intros H. now rewrite IH.
Qed.

(** X12. The assignment [df[col] = ser] of line 8 and the lookup [df[col]]
    round-trip: the column read back is the one assigned, every other column
    reads as before, and the header keeps its order, with the new name
    appended when it was not there. *)
Theorem setitem_getitem (df : DataFrame) (col : string) (ser : Series) :
  Pandas.getitem (Pandas.setitem df col ser) col = inr ser /\
  (forall other, col <> other ->
     Pandas.getitem (Pandas.setitem df col ser) other = Pandas.getitem df other) /\
  Pandas.columns (Pandas.setitem df col ser) =
    (if Pandas.has_column df col then Pandas.columns df
     else Pandas.columns df ++ [col])%list.
Proof.
  split; [apply getitem_setitem_same|]. split.
  - intros other Hne. now apply getitem_setitem_other.
  - destruct (Pandas.has_column df col) eqn:E.
    + now apply columns_setitem_present.
    + now apply columns_setitem_absent.
Qed.

Lemma setitem_getitem_witness :
  "clean_booking_id" <> "creation_date" /\
  Pandas.getitem (Pandas.setitem table_two_bookings "clean_booking_id" [CStr "1"; CStr "2"])
                 "creation_date" =
  Pandas.getitem table_two_bookings "creation_date".
Proof.
  split; [discriminate|].
  apply (proj1 (proj2 (setitem_getitem table_two_bookings "clean_booking_id"
                         [CStr "1"; CStr "2"]))).
  discriminate.
Defined.

Lemma lower_char_idempotent c : Py.lower_char (Py.lower_char c) = Py.lower_char c.
Proof. destruct c as [[] [] [] [] [] [] [] []]; reflexivity. Qed.

Lemma lower_idempotent s : Py.lower (Py.lower s) = Py.lower s.
Proof.
  induction s as [|c s IH]; simpl; [reflexivity|].
  now rewrite lower_char_idempotent, IH.
Qed.

(** X13. The search of lines 13-17 depends on the column names only up to
    case: lower-casing every name selects the same column.  A column it
    finds is in the table and passes the test [if status_col:], and it is
    never the identifier column [activity_booking_id]. *)
Theorem find_status_col_case (cols : list string) :
  StatusUpdate.find_status_col (map Py.lower cols) =
    option_map Py.lower (StatusUpdate.find_status_col cols) /\
  (forall sc, StatusUpdate.find_status_col cols = Some sc ->
     In sc cols /\ StatusUpdate.truthy (Some sc) = true /\ sc <> "activity_booking_id").
Proof.
  split.
  - unfold StatusUpdate.find_status_col.
    induction cols as [|c cols IH]; simpl; [reflexivity|].
    rewrite lower_idempotent.
    destruct (Py.contains "status" (Py.lower c)); [reflexivity | exact IH].
  - intros sc H. pose proof (find_status_col_truthy _ _ H) as Ht.
    apply find_some in H. destruct H as [Hin Hc].
    split; [exact Hin|]. split; [exact Ht|].
    intros ->. discriminate Hc.
Qed.

Lemma find_status_col_case_witness :
  StatusUpdate.find_status_col ["activity_booking_id"; "Booking_STATUS"] = Some "Booking_STATUS" /\
  StatusUpdate.truthy (Some "Booking_STATUS") = true.
Proof.
  split; [reflexivity|].
  exact (proj1 (proj2 (proj2 (find_status_col_case ["activity_booking_id"; "Booking_STATUS"])
                         "Booking_STATUS" eq_refl))).
Defined.

(** ** The verification query of the date script *)

Section VerificationKeys.
Import Pandas DateUpdate.

Lemma in_lists_app out1 out2 : in_lists (out1 ++ out2) = (in_lists out1 ++ in_lists out2)%list.
Proof. unfold in_lists. apply flat_map_app. Qed.

Lemma in_lists_flat_map {X : Type} (f : X -> list string) l :
  in_lists (flat_map f l) = flat_map (fun x => in_lists (f x)) l.
Proof.
  induction l as [|x l IH]; simpl; [reflexivity|].
  now rewrite in_lists_app, IH.
Qed.

Lemma in_lists_whens (ws : list (string * string)) : in_lists (map when_line ws) = [].
Proof. induction ws as [|w ws IH]; simpl; [reflexivity | exact IH]. Qed.

Lemma in_lists_batch i (batch : list (string * Timestamp)) :
  batch <> [] -> Forall no_quote (map fst batch) ->
  in_lists (batch_lines i batch) = [map fst batch].
Proof.
  intros Hne Hq. unfold batch_lines, render.
  rewrite app_comm_cons, !in_lists_app, in_lists_whens.
  change (in_lists (_ :: ["UPDATE activity_bookings";
                          "SET created_at = CASE booking_id::text"]))
    with (@nil (list string)).
  change (in_lists ["    ELSE created_at"; "END";
                    "WHERE booking_id::text IN ('" ++
                    Py.join "', '" (in_keys (statement_of batch)) ++ "');"])
    with (in_lists ["WHERE booking_id::text IN ('" ++
                    Py.join "', '" (in_keys (statement_of batch)) ++ "');"]).
  cbn [app in_lists flat_map statement_of in_keys].
  rewrite read_in_where; [reflexivity | | exact Hq].
  destruct batch; [congruence | discriminate].
Qed.

Lemma in_lists_verification (keys : list string) :
  keys <> [] -> Forall no_quote keys ->
  in_lists (verification_lines (map CStr keys)) = [keys].
Proof.
  intros Hne Hq. unfold verification_lines, where_in. rewrite py_str_text.
  change (in_lists [nl ++ nl ++ "-- Verification query to check the updates";
                    "SELECT COUNT(*) as updated_count, MIN(created_at) as min_date, MAX(created_at) as max_date";
                    "FROM activity_bookings";
                    "WHERE booking_id::text IN ('" ++ Py.join "', '" keys ++ "');"])
    with (in_lists ["WHERE booking_id::text IN ('" ++ Py.join "', '" keys ++ "');"]).
  cbn [in_lists flat_map]. now rewrite (read_in_where keys Hne Hq).
Qed.

Lemma slice_incl {X : Type} (l : list X) i j x : In x (Py.slice l i j) -> In x l.
Proof.
  unfold Py.slice. intros H.
  apply (In_nth_error) in H. destruct H as [n Hn].
  rewrite nth_error_firstn in Hn. destruct (n <? j - i)%nat; [|discriminate].
  rewrite nth_error_skipn in Hn. now apply nth_error_In in Hn.
Qed.

End VerificationKeys.

(** X14. On a table whose identifier column is text, whose distinct rows
    carry a text key without a quote character and a timestamp, and which
    has at least one row, the [IN] lists read from the printed output of the
    date script are those of the batches, in order, followed by that of the
    verification query; the keys of the former, put together, are exactly the
    keys of the latter: the verification covers what the updates cover. *)
Theorem date_verification_keys
    (parse_datetime : Cell -> PyError + option Timestamp)
    (df : DataFrame) (ids dates : Series) (rows : list (string * Timestamp)) :
  Pandas.getitem df "booking_id" = inr ids ->
  DateUpdate.text_column ids = true ->
  Pandas.getitem df "creation_date" = inr dates ->
  Pandas.drop_duplicates (combine (DateUpdate.clean_booking_id_column ids) dates) =
    map DateUpdate.dated rows ->
  rows <> [] ->
  Forall no_quote (map fst rows) ->
  let out := fst (Run.run (DateUpdate.generate_update_sql parse_datetime df)) in
  let update_lists := map (map fst) (Py.batches DateUpdate.batch_size rows) in
  DateUpdate.in_lists out = (update_lists ++ [map fst rows])%list /\
  List.concat update_lists = map fst rows.
Proof.
  intros Hb Hs Hd Hu Hne Hq out update_lists. subst out update_lists.
  assert (1 <= DateUpdate.batch_size) as Hsize by (unfold DateUpdate.batch_size; lia).
  rewrite (emits_run _ _ (date_script_emits parse_datetime df ids dates rows Hb Hs Hd Hu)).
  cbn [fst]. split.
  - rewrite !in_lists_app, in_lists_flat_map.
    change (DateUpdate.in_lists (DateUpdate.preamble_lines (List.length rows)))
      with (@nil (list string)).
    rewrite (in_lists_verification (map fst rows)); [| | exact Hq].
    + cbn [app]. f_equal. unfold Py.batches. rewrite map_map.
      rewrite <- flat_map_singleton. apply flat_map_ext_in.
      intros i Hi. apply in_lists_batch.
      * assert (In (Py.slice rows i (i + DateUpdate.batch_size))
                   (Py.batches DateUpdate.batch_size rows)) as Hin
          by (unfold Py.batches;
              apply (in_map (fun j => Py.slice rows j (j + DateUpdate.batch_size)));
              exact Hi).
        pose proof (batch_nonempty _ _ _ Hsize Hin) as Hlen.
        intros E. rewrite E in Hlen. simpl in Hlen. lia.
      * rewrite Forall_forall in *. intros k Hk.
        apply in_map_iff in Hk. destruct Hk as (r & <- & Hr).
        apply Hq. apply in_map. now apply slice_incl in Hr.
    + destruct rows; [congruence | discriminate].
  - rewrite <- concat_map. now rewrite (batches_cover _ rows Hsize).
Qed.

Lemma date_verification_keys_witness :
  DateUpdate.text_column [CStr "ENRO-1"; CStr "ENRO-2"] = true /\
  DateUpdate.in_lists
    (fst (Run.run (DateUpdate.generate_update_sql (fun _ => inl ValueError)
                     table_two_bookings))) = [["1"; "2"]; ["1"; "2"]].
Proof.
  split; [reflexivity|].
  assert (Forall no_quote (map fst [("1", mkTimestamp 2024 1 1 0 0 0);
                                    ("2", mkTimestamp 2024 1 2 0 0 0)])) as Hq
    by (repeat constructor).
  exact (proj1
    (date_verification_keys (fun _ => inl ValueError) table_two_bookings
       [CStr "ENRO-1"; CStr "ENRO-2"]
       [CTime (mkTimestamp 2024 1 1 0 0 0); CTime (mkTimestamp 2024 1 2 0 0 0)]
       [("1", mkTimestamp 2024 1 1 0 0 0); ("2", mkTimestamp 2024 1 2 0 0 0)]
       eq_refl eq_refl eq_refl eq_refl ltac:(discriminate) Hq)).
Defined.

(** ** read_excel.py on an arbitrary sheet *)

Section Sheet.
Import Pandas Run ReadExcel.

Variable repr_columns : list string -> string.
Variable repr_frame : DataFrame -> string.
Variable repr_cells : list Cell -> string.
Variable repr_series : Series -> string.

Lemma column_has_column df col : In col (columns df) -> has_column df col = true.
Proof.
  intros H. unfold has_column. apply existsb_exists.
  exists col. split; [exact H | apply String.eqb_refl].
Qed.

Lemma report_ids_emits df col :
  emits (report_ids repr_cells df col) (ids_lines repr_cells df col).
Proof.
  unfold report_ids, ids_lines, column_or_empty.
  destruct (has_column df col) eqn:Hc; [|apply emits_ret].
  destruct (has_column_getitem _ _ Hc) as (ser & Hser & _). rewrite Hser.
  apply emits_print_then. eapply emits_lift_then; [reflexivity|]. apply emits_print.
Qed.

Lemma report_date_column_emits df col :
  In col (columns df) ->
  emits (report_date_column repr_series df col) (date_lines repr_series df col).
Proof.
  intros Hin. unfold report_date_column, date_lines, column_or_empty.
  destruct (has_column_getitem _ _ (column_has_column _ _ Hin)) as (ser & Hser & _).
  rewrite Hser.
  apply emits_print_then. eapply emits_lift_then; [reflexivity|]. apply emits_print.
Qed.

Lemma read_excel_emits df :
  emits (read_excel repr_columns repr_frame repr_cells repr_series df)
        (opening_lines repr_columns repr_frame df ++
         ids_lines repr_cells df "activity_booking_id" ++
         ids_lines repr_cells df "booking_id" ++
         date_columns_line repr_columns df ++
         flat_map (date_lines repr_series df) (filter is_date_column (columns df))).
Proof.
  unfold read_excel. cbv zeta.
  eapply emits_ext.
  - do 5 apply emits_print_then.
    apply emits_then; [apply report_ids_emits|].
    apply emits_then; [apply report_ids_emits|].
    apply emits_print_then.
    replace (match filter is_date_column (columns df) with
             | [] => ret tt
             | _ :: _ => for_each (filter is_date_column (columns df))
                                  (report_date_column repr_series df)
             end)
      with (for_each (filter is_date_column (columns df))
                     (report_date_column repr_series df))
      by (now destruct (filter is_date_column (columns df))).
    apply (emits_for_each _ _ (date_lines repr_series df)).
    intros col Hcol.
    apply report_date_column_emits. now apply filter_In in Hcol.
  - reflexivity.
Qed.

End Sheet.

(** X15. [read_excel.py] ends normally on every sheet whose column names are
    text: every column it indexes is one it found in the header.  After its
    five opening lines it prints two lines for each of [activity_booking_id]
    and [booking_id] that is present, the list of date columns, and two
    lines for every column whose lower-cased name contains [date] or
    [created], in header order. *)
Theorem read_excel_report
    (repr_columns : list string -> string) (repr_frame : DataFrame -> string)
    (repr_cells : list Cell -> string) (repr_series : Series -> string)
    (df : DataFrame) :
  let result := Run.run (ReadExcel.read_excel repr_columns repr_frame repr_cells repr_series df) in
  let date_columns := filter ReadExcel.is_date_column (Pandas.columns df) in
  let present col := if Pandas.has_column df col then 1 else 0 in
  snd result = None /\
  fst result =
    (ReadExcel.opening_lines repr_columns repr_frame df ++
     ReadExcel.ids_lines repr_cells df "activity_booking_id" ++
     ReadExcel.ids_lines repr_cells df "booking_id" ++
     ReadExcel.date_columns_line repr_columns df ++
     flat_map (ReadExcel.date_lines repr_series df) date_columns)%list /\
  List.length (fst result) =
    6 + 2 * present "activity_booking_id" + 2 * present "booking_id" +
    2 * List.length date_columns.
Proof.
  intros result date_columns present. subst result.
  rewrite (emits_run _ _ (read_excel_emits repr_columns repr_frame repr_cells repr_series df)).
  cbn [fst snd]. split; [reflexivity|]. split; [reflexivity|].
  rewrite !length_app, length_flat_map.
  rewrite (map_ext _ (fun _ => 2)) by reflexivity.
  assert (forall l : list string, list_sum (map (fun _ => 2) l) = 2 * List.length l) as Hsum
    by (induction l; simpl; lia).
  rewrite Hsum. subst present date_columns. unfold ReadExcel.ids_lines.
  destruct (Pandas.has_column df "activity_booking_id");
    destruct (Pandas.has_column df "booking_id"); simpl; lia.
Qed.

Lemma read_excel_report_witness :
  filter ReadExcel.is_date_column (Pandas.columns table_sheet) = ["creation_date"; "Created At"] /\
  List.length
    (fst (Run.run (ReadExcel.read_excel (fun _ => "") (fun _ => "") (fun _ => "")
                     (fun _ => "") table_sheet))) = 12.
Proof.
  split; [reflexivity|].
  exact (proj2 (proj2
    (read_excel_report (fun _ => "") (fun _ => "") (fun _ => "") (fun _ => "") table_sheet))).
Defined.

(** ** Counting and numbering *)

(** X16. The number printed on line 27 of the status script, [nunique()],
    is the number of distinct identifiers that are not missing; it never
    exceeds the number of rows. *)
Theorem nunique_counts (ids : Series) :
  NoDup (Pandas.unique (filter Pandas.notna ids)) /\
  (forall x, In x (Pandas.unique (filter Pandas.notna ids)) <-> In x ids /\ x <> CNaN) /\
  Pandas.nunique ids = List.length (Pandas.unique (filter Pandas.notna ids)) /\
  Pandas.nunique ids <= List.length ids.
Proof.
  unfold Pandas.nunique, Pandas.unique. split; [|split; [|split]].
  - apply (first_occurrences_NoDup _ cell_same_eq).
  - intros x. rewrite (first_occurrences_In _ cell_same_eq), filter_In. simpl.
    split.
    + intros [[H1 H2] _]. split; [exact H1|]. intros ->. discriminate H2.
    + intros [H1 H2]. split; [|tauto]. split; [exact H1|]. now destruct x.
  - reflexivity.
  - transitivity (List.length (filter Pandas.notna ids)); [|apply filter_length_le].
    apply NoDup_incl_length; [apply (first_occurrences_NoDup _ cell_same_eq)|].
    intros x Hx. now apply (first_occurrences_In _ cell_same_eq) in Hx.
Qed.




Lemma status_groups_partition_witness :
  In (CStr "ok") [CStr "ok"; CNaN; CStr "ok"] /\
  In (CStr "ok") (Pandas.unique [CStr "ok"; CNaN; CStr "ok"]).
Proof.
  assert (In (CStr "ok") [CStr "ok"; CNaN; CStr "ok"]) as H by (left; reflexivity).
  split; [exact H|].
  exact (proj2 (proj1 (proj2 (status_groups_partition [CStr "ok"; CNaN; CStr "ok"]
                                [CInt 1; CInt 2; CInt 3])) (CStr "ok")) H).
Defined.

Lemma nunique_counts_witness :
  (In (CInt 7) [CInt 7; CNaN; CInt 7] /\ CInt 7 <> CNaN) /\
  In (CInt 7) (Pandas.unique (filter Pandas.notna [CInt 7; CNaN; CInt 7])).
Proof.
  assert (In (CInt 7) [CInt 7; CNaN; CInt 7] /\ CInt 7 <> CNaN) as H
    by (split; [left; reflexivity | discriminate]).
  split; [exact H|].
  exact (proj2 (proj1 (proj2 (nunique_counts [CInt 7; CNaN; CInt 7])) (CInt 7)) H).
Defined.

(** ** A key that is missing *)

Section MissingKey.
Import Pandas Run DateUpdate.

Variable parse_datetime : Cell -> PyError + option Timestamp.

Lemma join_keys_missing keys : In CNaN keys -> join_keys keys = inl TypeError.
Proof.
  intros H. unfold join_keys.
  assert (existsb is_missing keys = true) as ->; [|reflexivity].
  apply existsb_exists. now exists CNaN.
Qed.

Lemma emit_batch_missing_key i batch date :
  In (CNaN, date) batch -> raises (emit_batch parse_datetime i batch).
Proof.
  intros Hin. unfold emit_batch.
  do 6 (apply raises_bind_r; intros _).
  apply raises_bind_l. intros out. exists TypeError. unfold lift. cbn [snd].
  rewrite join_keys_missing; [reflexivity|].
  apply (in_map fst) in Hin. exact Hin.
Qed.

Lemma batch_loop_missing_key (unique_bookings : list (Cell * Cell)) date :
  In (CNaN, date) unique_bookings ->
  raises (for_each (Py.range0 (List.length unique_bookings) batch_size)
                   (fun i => emit_batch parse_datetime i
                               (Py.slice unique_bookings i (i + batch_size)))).
Proof.
  intros Hin.
  rewrite <- (batches_cover batch_size unique_bookings) in Hin
    by (unfold batch_size; lia).
  apply in_concat in Hin. destruct Hin as (b & Hb & Hrow).
  unfold Py.batches in Hb. apply in_map_iff in Hb. destruct Hb as (i & <- & Hi).
  apply (raises_for_each _ _ i Hi). now apply (emit_batch_missing_key _ _ date).
Qed.

End MissingKey.

(** X19. When the identifier column is a column of text and some distinct
    row has no key, its [booking_id] cell being missing or not text, the
    date script does not finish: after its four opening lines it ends in an
    uncaught exception inside the batch loop (at the latest the join of line
    38, which does not accept a missing key), and the verification query is
    never printed. *)
Theorem date_script_missing_key
    (parse_datetime : Cell -> PyError + option Timestamp)
    (df : DataFrame) (ids dates : Series) (date : Cell) :
  Pandas.getitem df "booking_id" = inr ids ->
  DateUpdate.text_column ids = true ->
  Pandas.getitem df "creation_date" = inr dates ->
  In (CNaN, date) (combine (DateUpdate.clean_booking_id_column ids) dates) ->
  let unique_bookings :=
    Pandas.drop_duplicates (combine (DateUpdate.clean_booking_id_column ids) dates) in
  let result := Run.run (DateUpdate.generate_update_sql parse_datetime df) in
  (exists e, snd result = Some e) /\
  (exists rest,
     fst result = (DateUpdate.preamble_lines (List.length unique_bookings) ++ rest)%list) /\
  select_statements (fst result) = [].
Proof.
  intros Hb Hs Hd Hin unique_bookings result.
  assert (In (CNaN, date) unique_bookings) as Hu
    by (apply (first_occurrences_In _ row_same_eq); split; [exact Hin | now intros []]).
  pose proof (batch_loop_missing_key parse_datetime unique_bookings date Hu) as Hraise.
  assert (Run.prints_only not_select
            (Run.for_each (Py.range0 (List.length unique_bookings) DateUpdate.batch_size)
               (fun i => DateUpdate.emit_batch parse_datetime i
                           (Py.slice unique_bookings i (i + DateUpdate.batch_size)))))
    as Hprint
    by (apply prints_only_for_each; intros i; apply emit_batch_no_select).
  destruct (Hraise (DateUpdate.preamble_lines (List.length unique_bookings))) as [e He].
  destruct (Hprint (DateUpdate.preamble_lines (List.length unique_bookings)))
    as (lines & El & Fl).
  assert (result =
          ((DateUpdate.preamble_lines (List.length unique_bookings) ++ lines)%list, Some e))
    as E.
  { subst result. unfold Run.run, DateUpdate.generate_update_sql.
    unfold Run.bind at 1. unfold Run.lift at 1. rewrite Hb.
    unfold Run.bind at 1. unfold Run.lift at 1.
    rewrite (clean_column_text _ Hs). cbv beta zeta.
    unfold Run.bind at 1. unfold Run.lift at 1. rewrite getitem_setitem_same.
    unfold Run.bind at 1. unfold Run.lift at 1.
    rewrite getitem_setitem_other by discriminate. rewrite Hd.
    fold unique_bookings. rewrite length_map.
    do 5 (unfold Run.bind at 1). unfold Run.print.
    change ((((([] ++ [?a]) ++ [?b]) ++ [?c]) ++ [?d])%list) with [a; b; c; d].
    fold (DateUpdate.preamble_lines (List.length unique_bookings)).
    destruct (Run.for_each _ _ (DateUpdate.preamble_lines (List.length unique_bookings)))
      as [out' [e'|[]]]; simpl in He, El; [|discriminate He].
    now injection He as ->; subst out'. }
  rewrite E. cbn [fst snd]. split; [now exists e|]. split; [now exists lines|].
  unfold select_statements. rewrite filter_app.
  now rewrite (filter_none _ lines Fl).
Qed.

Lemma date_script_missing_key_witness :
  DateUpdate.text_column [CStr "ENRO-1"; CInt 7] = true /\
  In (CNaN, CTime (mkTimestamp 2024 1 2 0 0 0))
     (combine (DateUpdate.clean_booking_id_column [CStr "ENRO-1"; CInt 7])
              [CTime (mkTimestamp 2024 1 1 0 0 0); CTime (mkTimestamp 2024 1 2 0 0 0)]) /\
  select_statements
    (fst (Run.run (DateUpdate.generate_update_sql (fun _ => inl ValueError)
                     table_missing_key))) = [].
Proof.
  assert (In (CNaN, CTime (mkTimestamp 2024 1 2 0 0 0))
            (combine (DateUpdate.clean_booking_id_column [CStr "ENRO-1"; CInt 7])
                     [CTime (mkTimestamp 2024 1 1 0 0 0);
                      CTime (mkTimestamp 2024 1 2 0 0 0)])) as Hin
    by (right; left; reflexivity).
  split; [reflexivity|]. split; [exact Hin|].
  exact (proj2 (proj2
    (date_script_missing_key (fun _ => inl ValueError) table_missing_key
       [CStr "ENRO-1"; CInt 7]
       [CTime (mkTimestamp 2024 1 1 0 0 0); CTime (mkTimestamp 2024 1 2 0 0 0)]
       (CTime (mkTimestamp 2024 1 2 0 0 0)) eq_refl eq_refl eq_refl Hin))).
Defined.
